(** * Exodus 2026 contact form backend (src/contactexo.py)

    A shallow embedding of the validation / sanitization pipeline and of the
    request handler [contact], followed by the properties of the
    specification that are settled against it.

    Conventions of the embedding.
    - A Python [str] is a list of Unicode code points ([list N]); [len] is
      [length], slicing [s[:n]] is [firstn n s].
    - Whitespace recognised by [str.strip()] is the fixed CPython table.
      The Unicode tables that CPython consults for non-ASCII characters
      (decimal digits for the regex class [\d], full lower-casing) are not
      part of the program: they are a parameter, [unicode_tables].  Every
      ASCII character is treated concretely.
    - Values of type [exn] stand for instances of Python's [Exception]
      class, which is what both [except Exception] clauses catch.
    - The mail transport, the [Message] constructor, the configured admin
      address and the clock are external collaborators, gathered in
      [environment].
    - The debug print and the two logger calls are recorded in the trace
      and do not raise.  The rate limiter wraps [contact] from outside and
      is not part of it. *)

From Stdlib Require Import String Ascii.
From Stdlib Require Import List NArith Bool Arith Lia.
Import ListNotations.

Set Implicit Arguments.

(* ------------------------------------------------------------------ *)
(** ** Python strings *)
(* ------------------------------------------------------------------ *)

Definition char := N.
Definition str := list char.

(** An ASCII literal of the source, as a list of code points. *)
Definition lit (s : string) : str := map N_of_ascii (list_ascii_of_string s).

Definition char_eqb (a b : char) : bool := N.eqb a b.

Fixpoint str_eqb (a b : str) : bool :=
  match a, b with
  | [], [] => true
  | x :: a', y :: b' => char_eqb x y && str_eqb a' b'
  | _, _ => false
  end.

Definition between (lo hi c : N) : bool := (N.leb lo c && N.leb c hi)%bool.

(** [str.isspace] for one code point: the characters removed by
    [str.strip()] when it is called without argument. *)
Definition isspace (c : char) : bool :=
  (between 9 13 c || between 28 32 c || N.eqb c 133 || N.eqb c 160
   || N.eqb c 5760 || between 8192 8202 c || N.eqb c 8232 || N.eqb c 8233
   || N.eqb c 8239 || N.eqb c 8287 || N.eqb c 12288)%bool.

Fixpoint dropwhile (p : char -> bool) (s : str) : str :=
  match s with
  | [] => []
  | c :: t => if p c then dropwhile p t else s
  end.

Definition lstrip (s : str) : str := dropwhile isspace s.
Definition rstrip (s : str) : str := rev (dropwhile isspace (rev s)).

(** [s.strip()] *)
Definition strip (s : str) : str := rstrip (lstrip s).

Definition is_ascii (c : char) : bool := N.ltb c 128.
Definition ascii_upper (c : char) : bool := between 65 90 c.
Definition ascii_lower_letter (c : char) : bool := between 97 122 c.
Definition ascii_digit (c : char) : bool := between 48 57 c.

Definition ascii_tolower (c : char) : char :=
  if ascii_upper c then (c + 32)%N else c.

(** The part of the Unicode character database used by the program for
    characters outside ASCII. *)
Record unicode_tables : Type := {
  (** category Nd, consulted by the regex class [\d] on a [str] pattern *)
  nonascii_decimal : char -> bool;
  (** [str.lower()] on a string that is not pure ASCII *)
  nonascii_lower : str -> str
}.

(** The instance with no non-ASCII digit and no non-ASCII case mapping; it
    agrees with any other instance on pure ASCII text. *)
Definition ascii_only : unicode_tables :=
  {| nonascii_decimal := fun _ => false; nonascii_lower := fun s => s |}.

(** [str.replace(old, new)] for a one-character [old]. *)
Definition replace1 (old : char) (new : str) (s : str) : str :=
  flat_map (fun c => if char_eqb c old then new else [c]) s.

(** [sep.join(parts)] *)
Fixpoint join (sep : str) (parts : list str) : str :=
  match parts with
  | [] => []
  | [p] => p
  | p :: rest => p ++ sep ++ join sep rest
  end.

(* ------------------------------------------------------------------ *)
(** ** Regular expressions (module [re]) *)
(* ------------------------------------------------------------------ *)

Inductive regex : Type :=
| Void : regex
| Eps : regex
| Class : list (char * char) -> regex      (* [a-bc-d...] *)
| Cat : regex -> regex -> regex
| Alt : regex -> regex -> regex
| Star : regex -> regex.

Definition in_class (rs : list (char * char)) (c : char) : bool :=
  existsb (fun r => between (fst r) (snd r) c) rs.

(** [r+] and [r{2,}] *)
Definition Plus (r : regex) : regex := Cat r (Star r).
Definition AtLeast2 (r : regex) : regex := Cat r (Cat r (Star r)).
Definition Chr (c : char) : regex := Class [(c, c)].

Fixpoint nullable (r : regex) : bool :=
  match r with
  | Void => false
  | Eps => true
  | Class _ => false
  | Cat a b => nullable a && nullable b
  | Alt a b => nullable a || nullable b
  | Star _ => true
  end.

Fixpoint deriv (c : char) (r : regex) : regex :=
  match r with
  | Void => Void
  | Eps => Void
  | Class rs => if in_class rs c then Eps else Void
  | Cat a b =>
      if nullable a then Alt (Cat (deriv c a) b) (deriv c b)
      else Cat (deriv c a) b
  | Alt a b => Alt (deriv c a) (deriv c b)
  | Star a => Cat (deriv c a) (Star a)
  end.

(** Whole-string acceptance. *)
Fixpoint accepts (r : regex) (s : str) : bool :=
  match s with
  | [] => nullable r
  | c :: t => accepts (deriv c r) t
  end.

(** [bool(re.match('^' + r + '$', s))] without flags: the match starts at
    position 0, and [$] holds at the end of the string and also just before
    a newline that is the last character. *)
Definition re_match (r : regex) (s : str) : bool :=
  accepts r s
  || match rev s with
     | 10%N :: t => accepts r (rev t)
     | _ => false
     end.

(** [re.sub('[<class>]', repl, s)] for a pattern that is one character
    class. *)
Definition re_sub_class (cls : char -> bool) (repl : str) (s : str) : str :=
  flat_map (fun c => if cls c then repl else [c]) s.

(** The mathematical meaning of a regular expression. *)
Inductive Matches : regex -> str -> Prop :=
| M_Eps : Matches Eps []
| M_Class rs c : in_class rs c = true -> Matches (Class rs) [c]
| M_Cat a b s t : Matches a s -> Matches b t -> Matches (Cat a b) (s ++ t)
| M_AltL a b s : Matches a s -> Matches (Alt a b) s
| M_AltR a b s : Matches b s -> Matches (Alt a b) s
| M_Star0 a : Matches (Star a) []
| M_StarS a s t : Matches a s -> Matches (Star a) t -> Matches (Star a) (s ++ t).

(* ------------------------------------------------------------------ *)
(** ** JSON values, dictionaries, exceptions *)
(* ------------------------------------------------------------------ *)

#[warnings="-register-all"]
Inductive json : Type :=
| JNull : json
| JBool : bool -> json
| JNumber : str -> json                (* the number, by its lexeme *)
| JString : str -> json
| JArray : list json -> json
| JObject : list (str * json) -> json.

(** A [dict] with string keys; the first binding of a key is the live one. *)
Definition dict := list (str * json).

Fixpoint lookup (d : dict) (k : str) : option json :=
  match d with
  | [] => None
  | (k', v) :: rest => if str_eqb k' k then Some v else lookup rest k
  end.

Inductive exn : Type :=
| AttributeError : exn
| KeyError : exn
| MailTransportError : exn           (* smtplib / socket failures *)
| OtherError : string -> exn.        (* any other Exception *)

Inductive result (A : Type) : Type :=
| Ok : A -> result A
| Raise : exn -> result A.
Arguments Ok {A} _.
Arguments Raise {A} _.

Definition rbind {A B} (m : result A) (k : A -> result B) : result B :=
  match m with
  | Ok a => k a
  | Raise e => Raise e
  end.

Declare Scope py_scope.
Delimit Scope py_scope with py.
Notation "x <- m ;; k" := (rbind m (fun x => k))
  (at level 61, m at next level, right associativity) : py_scope.

(** [d.get(k, default)] *)
Definition dict_get (d : dict) (k : str) (default : json) : json :=
  match lookup d k with
  | Some v => v
  | None => default
  end.

(** [d[k]] *)
Definition dict_index (d : dict) (k : str) : result json :=
  match lookup d k with
  | Some v => Ok v
  | None => Raise KeyError
  end.

(** [v.strip()]: only a [str] has the attribute. *)
Definition method_strip (v : json) : result str :=
  match v with
  | JString s => Ok (strip s)
  | _ => Raise AttributeError
  end.

(* ------------------------------------------------------------------ *)
(** ** Validation logic *)
(* ------------------------------------------------------------------ *)

Definition E_name_short : str := lit "Name must be at least 2 characters long".
Definition E_name_long : str := lit "Name must be less than 100 characters".
Definition E_email : str := lit "Please provide a valid email address".
Definition E_phone : str := lit "Please provide a valid phone number".
Definition E_message_short : str :=
  lit "Message must be at least 10 characters long".
Definition E_message_long : str :=
  lit "Message must be less than 1000 characters".

Definition K_name : str := lit "name".
Definition K_email : str := lit "email".
Definition K_phone : str := lit "phone".
Definition K_message : str := lit "message".

Definition alnum_ranges : list (char * char) :=
  [(65, 90); (97, 122); (48, 57)]%N.

(** [[A-Za-z0-9._%+-]] *)
Definition local_class : list (char * char) :=
  (alnum_ranges ++ [(46, 46); (95, 95); (37, 37); (43, 43); (45, 45)])%N.
(** [[A-Za-z0-9.-]] *)
Definition domain_class : list (char * char) :=
  (alnum_ranges ++ [(46, 46); (45, 45)])%N.
(** [[A-Za-z]] *)
Definition alpha_class : list (char * char) := [(65, 90); (97, 122)]%N.

(** [[A-Za-z0-9._%+-]+@[A-Za-z0-9.-]+\.[A-Za-z]{2,}], the text between the
    anchors of [email_regex]. *)
Definition email_regex : regex :=
  Cat (Plus (Class local_class))
    (Cat (Chr 64%N)
       (Cat (Plus (Class domain_class))
          (Cat (Chr 46%N) (AtLeast2 (Class alpha_class))))).

Section Validation.

Variable U : unicode_tables.

(** The regex class [\d] on a [str]. *)
Definition is_decimal (c : char) : bool :=
  if is_ascii c then ascii_digit c else nonascii_decimal U c.

(** [s.lower()] *)
Definition lower (s : str) : str :=
  if forallb is_ascii s then map ascii_tolower s else nonascii_lower U s.

Local Open Scope py_scope.

Definition validate_contact_form (data : dict) : result (list str) :=
  let errors : list str := [] in
  (* Name *)
  name <- method_strip (dict_get data K_name (JString [])) ;;
  let errors :=
    if length name <? 2 then errors ++ [E_name_short]
    else if 100 <? length name then errors ++ [E_name_long]
    else errors in
  (* Email *)
  email <- method_strip (dict_get data K_email (JString [])) ;;
  let errors :=
    if negb (re_match email_regex email) then errors ++ [E_email]
    else errors in
  (* Phone (optional) *)
  phone <- method_strip (dict_get data K_phone (JString [])) ;;
  let errors :=
    match phone with
    | [] => errors
    | _ :: _ =>
        let phone_clean :=
          re_sub_class (fun c => negb (is_decimal c)) [] phone in
        if (length phone_clean <? 10) || (15 <? length phone_clean)
        then errors ++ [E_phone]
        else errors
    end in
  (* Message *)
  message <- method_strip (dict_get data K_message (JString [])) ;;
  let errors :=
    if length message <? 10 then errors ++ [E_message_short]
    else if 1000 <? length message then errors ++ [E_message_long]
    else errors in
  Ok errors.

End Validation.

Definition mk_dict (name email message : string) : dict :=
  [(K_name, JString (lit name)); (K_email, JString (lit email));
   (K_message, JString (lit message))].

(* ------------------------------------------------------------------ *)
(** ** Sanitization *)
(* ------------------------------------------------------------------ *)

(** [markupsafe.escape] applied to a [str]: five successive
    replacements, the ampersand first. *)
Definition escape (s : str) : str :=
  replace1 34%N (lit "&#34;")
    (replace1 39%N (lit "&#39;")
       (replace1 60%N (lit "&lt;")
          (replace1 62%N (lit "&gt;")
             (replace1 38%N (lit "&amp;") s)))).

Record SanitizedSubmission : Type := {
  name : str;
  email : str;
  phone : str;
  message_text : str;
  timestamp : str
}.

Section Sanitizer.

Variable U : unicode_tables.
Local Open Scope py_scope.

(** Lines 124-128 of [contact]; [clock] is
    [datetime.now().strftime('%Y-%m-%d %H:%M:%S')]. *)
Definition sanitize (data : dict) (clock : str) : result SanitizedSubmission :=
  v <- dict_index data K_name ;;
  s <- method_strip v ;;
  let name := escape (firstn 100 s) in
  v <- dict_index data K_email ;;
  s <- method_strip v ;;
  let email := escape (lower U s) in
  s <- method_strip (dict_get data K_phone (JString [])) ;;
  let phone := escape (firstn 20 s) in
  v <- dict_index data K_message ;;
  s <- method_strip v ;;
  let message_text := escape (firstn 1000 s) in
  Ok {| name := name; email := email; phone := phone;
        message_text := message_text; timestamp := clock |}.

End Sanitizer.

(* ------------------------------------------------------------------ *)
(** ** Notification messages *)
(* ------------------------------------------------------------------ *)

Record message : Type := {
  subject : str;
  recipients : list (option str);
  body : str;
  html : str
}.

Definition nl : str := [10%N].
Definition dq : str := [34%N].

(** An attribute inside a tag: the name, an equals sign and the quoted
    value. *)
Definition attr (n v : string) : str := lit n ++ lit "=" ++ dq ++ lit v ++ dq.

(** [phone if phone else 'Not provided'] *)
Definition phone_or_default (p : str) : str :=
  match p with
  | [] => lit "Not provided"
  | _ :: _ => p
  end.

Definition admin_body (s : SanitizedSubmission) : str :=
  join nl
    [ [];
      lit "New contact form submission:";
      [];
      lit "Name: " ++ name s;
      lit "Email: " ++ email s;
      lit "Phone: " ++ phone_or_default (phone s);
      lit "Date: " ++ timestamp s;
      [];
      lit "Message:";
      message_text s;
      lit "            " ].

Definition html_open : list str :=
  [ [];
    lit "<html>";
    lit "<body " ++ attr "style" "font-family: Arial, sans-serif; color:#333;"
      ++ lit ">";
    lit "    <div " ++ attr "style" "max-width:600px;margin:auto;padding:20px;"
      ++ lit ">" ].

Definition html_close : list str :=
  [ lit "    </div>"; lit "</body>"; lit "</html>"; lit "            " ].

Definition admin_html (s : SanitizedSubmission) : str :=
  join nl
    (html_open ++
     [ lit "        <h2 " ++ attr "style" "color:#dc143c;"
         ++ lit ">New Contact Form Submission</h2>";
       lit "        <p><strong>Name:</strong> " ++ name s ++ lit "</p>";
       lit "        <p><strong>Email:</strong> " ++ email s ++ lit "</p>";
       lit "        <p><strong>Phone:</strong> " ++ phone_or_default (phone s)
         ++ lit "</p>";
       lit "        <p><strong>Date:</strong> " ++ timestamp s ++ lit "</p>";
       lit "        <hr>";
       lit "        <p><strong>Message:</strong></p>";
       lit "        <p "
         ++ attr "style" "white-space:pre-wrap;background:#f5f5f5;padding:15px;"
         ++ lit ">";
       lit "            " ++ message_text s;
       lit "        </p>" ]
     ++ html_close).

Definition user_body (s : SanitizedSubmission) : str :=
  join nl
    [ [];
      lit "Hello " ++ name s ++ lit ",";
      [];
      lit "Thank you for contacting Exodus 2026.";
      lit "We have received your message and will respond shortly.";
      [];
      lit "Your message:";
      message_text s;
      [];
      lit "Regards,";
      lit "Exodus 2026 Team";
      lit "            " ].

(** The three code points that open the signature line of the source. *)
Definition signature_dash : str := [226; 8364; 8221]%N.

Definition user_html (s : SanitizedSubmission) : str :=
  join nl
    (html_open ++
     [ lit "        <h2 " ++ attr "style" "color:#dc143c;"
         ++ lit ">Thank You for Contacting Us</h2>";
       lit "        <p>Hello <strong>" ++ name s ++ lit "</strong>,</p>";
       lit "        <p>We have received your message and will get back to you soon.</p>";
       lit "        <div " ++ attr "style" "background:#f5f5f5;padding:15px;"
         ++ lit ">";
       lit "            <strong>Your message:</strong>";
       lit "            <p " ++ attr "style" "white-space:pre-wrap;" ++ lit ">"
         ++ message_text s ++ lit "</p>";
       lit "        </div>";
       lit "        <p>" ++ signature_dash ++ lit " Exodus 2026 Team</p>" ]
     ++ html_close).

(** The arguments of the two [Message(...)] calls. *)
Definition admin_msg_args (admin : option str) (s : SanitizedSubmission)
  : message :=
  {| subject := lit "New Contact Form Submission - Exodus 2026";
     recipients := [admin];
     body := admin_body s;
     html := admin_html s |}.

Definition user_msg_args (s : SanitizedSubmission) : message :=
  {| subject := lit "Thank you for contacting Exodus 2026";
     recipients := [Some (email s)];
     body := user_body s;
     html := user_html s |}.

(* ------------------------------------------------------------------ *)
(** ** The request handler *)
(* ------------------------------------------------------------------ *)

(** What one request leaves behind, in order. *)
Inductive event : Type :=
| Printed : option json -> event        (* the debug print of the body *)
| SendAttempt : message -> event        (* a call of mail.send *)
| LoggedMailError : exn -> event        (* logger.error, inner handler *)
| LoggedUnhandled : exn -> event.       (* logger.exception, outer handler *)

Definition trace := list event.

Fixpoint attempts (t : trace) : list message :=
  match t with
  | [] => []
  | SendAttempt m :: t' => m :: attempts t'
  | _ :: t' => attempts t'
  end.

(** The collaborators of [contact]. *)
Record environment : Type := {
  (** app.config['ADMIN_EMAIL'] *)
  ADMIN_EMAIL : option str;
  (** datetime.now().strftime('%Y-%m-%d %H:%M:%S') *)
  clock : str;
  (** the constructor of flask_mail.Message; [Some e] when it raises *)
  Message_init : message -> option exn;
  (** mail.send(m), given the sends already attempted for this request;
      [Some e] when it raises *)
  mail_send : list message -> message -> option exn
}.

(** Computations of the handler: a trace is threaded, an exception may
    escape. *)
Definition io (A : Type) : Type := trace -> result A * trace.

Definition io_ret {A} (a : A) : io A := fun t => (Ok a, t).

Definition io_bind {A B} (m : io A) (k : A -> io B) : io B :=
  fun t =>
    match m t with
    | (Ok a, t') => k a t'
    | (Raise e, t') => (Raise e, t')
    end.

Definition io_lift {A} (r : result A) : io A := fun t => (r, t).

Definition emit (ev : event) : io unit := fun t => (Ok tt, t ++ [ev]).

(** [try: m  except Exception as e: h e] *)
Definition try_except {A} (m : io A) (h : exn -> io A) : io A :=
  fun t =>
    match m t with
    | (Ok a, t') => (Ok a, t')
    | (Raise e, t') => h e t'
    end.

Notation "x <~ m ;; k" := (io_bind m (fun x => k))
  (at level 61, m at next level, right associativity) : py_scope.
Notation "m ;;; k" := (io_bind m (fun _ => k))
  (at level 61, right associativity) : py_scope.

Inductive payload : Type :=
| Errors : bool -> list str -> payload      (* keys success, errors *)
| Notice : bool -> str -> payload.          (* keys success, message *)

Record response : Type := { content : payload; status : nat }.

Definition R_bad_json : response :=
  {| content := Errors false [lit "Invalid or missing JSON data"];
     status := 400 |}.
Definition R_invalid (errors : list str) : response :=
  {| content := Errors false errors; status := 400 |}.
Definition R_mail_unavailable : response :=
  {| content := Notice false (lit "Email service temporarily unavailable.");
     status := 503 |}.
Definition R_sent : response :=
  {| content :=
       Notice true (lit "Thank you! Your message has been sent successfully.");
     status := 200 |}.
Definition R_internal_error : response :=
  {| content := Notice false (lit "Internal server error."); status := 500 |}.

Section Handler.

Variable U : unicode_tables.
Variable E : environment.
Local Open Scope py_scope.

(** [Message(...)] *)
Definition new_message (args : message) : io message :=
  fun t =>
    match Message_init E args with
    | Some e => (Raise e, t)
    | None => (Ok args, t)
    end.

(** [mail.send(m)] *)
Definition send (m : message) : io unit :=
  fun t =>
    match mail_send E (attempts t) m with
    | Some e => (Raise e, t ++ [SendAttempt m])
    | None => (Ok tt, t ++ [SendAttempt m])
    end.

(** The body of [contact]; [request_json] is
    [request.get_json(silent=True)], [None] when the body is not JSON. *)
Definition contact (request_json : option json) : io response :=
  try_except
    (let data := request_json in
     emit (Printed data) ;;;
     match data with
     | Some (JObject data) =>
         (* Validate *)
         errors <~ io_lift (validate_contact_form U data) ;;
         match errors with
         | _ :: _ => io_ret (R_invalid errors)
         | [] =>
             (* Sanitize inputs *)
             sub <~ io_lift (sanitize U data (clock E)) ;;
             admin_msg <~ new_message (admin_msg_args (ADMIN_EMAIL E) sub) ;;
             user_msg <~ new_message (user_msg_args sub) ;;
             failed <~ try_except
                         (send admin_msg ;;;
                          send user_msg ;;;
                          io_ret None)
                         (fun mail_error =>
                            emit (LoggedMailError mail_error) ;;;
                            io_ret (Some R_mail_unavailable)) ;;
             match failed with
             | Some r => io_ret r
             | None => io_ret R_sent
             end
         end
     | _ => io_ret R_bad_json
     end)
    (fun e =>
       emit (LoggedUnhandled e) ;;;
       io_ret R_internal_error).

(** One request, from an empty trace. *)
Definition handle (request_json : option json) : result response * trace :=
  contact request_json [].

End Handler.

(** The health route: the body has the keys status and timestamp,
    [utcnow] is [datetime.utcnow().isoformat()]; the code is 200.  It
    reads nothing of the request and touches neither the validator nor the
    mail transport. *)
Record health_body : Type := { health_state : str; health_timestamp : str }.

Definition health (utcnow : str) : health_body * nat :=
  ({| health_state := lit "healthy"; health_timestamp := utcnow |}, 200).

(* ================================================================== *)
(** * Vocabulary of the properties *)
(* ================================================================== *)

(** ** The email pattern, as the specification words it

    [local-part @ domain . tld]: a non-empty local part over
    [A-Za-z0-9._%+-], a non-empty domain over [A-Za-z0-9.-], and a final
    label of at least two letters; the whole string has that shape. *)

Definition letter (c : char) : bool := between 65 90 c || between 97 122 c.
Definition one_of (cs : str) (c : char) : bool := existsb (N.eqb c) cs.
Definition local_char (c : char) : bool :=
  letter c || ascii_digit c || one_of (lit "._%+-") c.
Definition domain_char (c : char) : bool :=
  letter c || ascii_digit c || one_of (lit ".-") c.

Definition EmailPattern (s : str) : Prop :=
  exists l d t : str,
    s = l ++ lit "@" ++ d ++ lit "." ++ t
    /\ l <> [] /\ forallb local_char l = true
    /\ d <> [] /\ forallb domain_char d = true
    /\ 2 <= length t /\ forallb letter t = true.

(** The characters an accepted email is made of. *)
Definition email_char (c : char) : bool := local_char c || N.eqb c 64.

(** ** Fields of the body *)

(** The text of a field as the validator sees it: the value of data.get with the empty string as default. *)
Definition field (data : dict) (k : str) : json := dict_get data k (JString []).

(** The text of a key that is absent or bound to a string. *)
Definition text (data : dict) (k : str) : str :=
  match lookup data k with
  | Some (JString s) => s
  | _ => []
  end.

Definition absent_or_string (data : dict) (k : str) : Prop :=
  lookup data k = None \/ exists s, lookup data k = Some (JString s).

(** ** The four rules of the validator, one field at a time *)

Definition name_errors (n : str) : list str :=
  if length n <? 2 then [E_name_short]
  else if 100 <? length n then [E_name_long]
  else [].

Definition email_errors (e : str) : list str :=
  if re_match email_regex e then [] else [E_email].

Definition digit_count (U : unicode_tables) (p : str) : nat :=
  length (filter (is_decimal U) p).

Definition phone_errors (U : unicode_tables) (p : str) : list str :=
  match p with
  | [] => []
  | _ :: _ =>
      if (digit_count U p <? 10) || (15 <? digit_count U p) then [E_phone]
      else []
  end.

Definition message_errors (m : str) : list str :=
  if length m <? 10 then [E_message_short]
  else if 1000 <? length m then [E_message_long]
  else [].

(** ** HTML escaping, character by character, and its decoding *)

(** What [escape] does to one character. *)
Definition escape_char (c : char) : str :=
  if N.eqb c 38 then lit "&amp;"
  else if N.eqb c 62 then lit "&gt;"
  else if N.eqb c 60 then lit "&lt;"
  else if N.eqb c 39 then lit "&#39;"
  else if N.eqb c 34 then lit "&#34;"
  else [c].

(** Ampersand, less-than, greater-than, apostrophe and double quote. *)
Definition special (c : char) : bool := one_of [38; 60; 62; 39; 34]%N c.
(** The four of them that are not the ampersand. *)
Definition raw_markup (c : char) : bool := one_of [60; 62; 39; 34]%N c.

Definition entities : list str :=
  [lit "&amp;"; lit "&lt;"; lit "&gt;"; lit "&#39;"; lit "&#34;"].

(** Every ampersand of [t] is the first character of an entity. *)
Definition ampersands_escaped (t : str) : Prop :=
  forall i, nth_error t i = Some 38%N ->
            exists e, In e entities /\ firstn (length e) (skipn i t) = e.

Definition starts_with (p s : str) : bool := str_eqb (firstn (length p) s) p.

(** After an ampersand: the character an entity stands for and the number
    of characters left to skip. *)
Definition entity_tail (t : str) : option (char * nat) :=
  if starts_with (lit "amp;") t then Some (38%N, 4)
  else if starts_with (lit "lt;") t then Some (60%N, 3)
  else if starts_with (lit "gt;") t then Some (62%N, 3)
  else if starts_with (lit "#39;") t then Some (39%N, 4)
  else if starts_with (lit "#34;") t then Some (34%N, 4)
  else None.

(** Decoding of the five entities, one pass from left to right. *)
Fixpoint unescape_from (skip : nat) (s : str) : str :=
  match s with
  | [] => []
  | c :: t =>
      match skip with
      | S k => unescape_from k t
      | O =>
          if N.eqb c 38 then
            match entity_tail t with
            | Some (x, k) => x :: unescape_from k t
            | None => c :: unescape_from 0 t
            end
          else c :: unescape_from 0 t
      end
  end.

Definition unescape (s : str) : str := unescape_from 0 s.

(** ** Outcomes of the dispatch *)

Definition is_transport (e : exn) : bool :=
  match e with
  | MailTransportError => true
  | _ => false
  end.

(** The outcome of the two constructions and the two sends, for a
    sanitized submission; [p] is the event of the debug print. *)
Definition dispatch_outcome (E : environment) (p : event)
  (sub : SanitizedSubmission)
  : result response * trace :=
  let A := admin_msg_args (ADMIN_EMAIL E) sub in
  let B := user_msg_args sub in
  match Message_init E A with
  | Some e => (Ok R_internal_error, [p; LoggedUnhandled e])
  | None =>
      match Message_init E B with
      | Some e => (Ok R_internal_error, [p; LoggedUnhandled e])
      | None =>
          match mail_send E [] A with
          | Some e =>
              (Ok R_mail_unavailable, [p; SendAttempt A; LoggedMailError e])
          | None =>
              match mail_send E [A] B with
              | Some e =>
                  (Ok R_mail_unavailable,
                   [p; SendAttempt A; SendAttempt B; LoggedMailError e])
              | None => (Ok R_sent, [p; SendAttempt A; SendAttempt B])
              end
          end
      end
  end.

(** ** Concrete deployments and requests *)

Definition stamp : str := lit "2026-01-01 00:00:00".

(** A deployment in which construction and transport both work. *)
Definition env_ok : environment :=
  {| ADMIN_EMAIL := Some (lit "admin@exodus.example");
     clock := stamp;
     Message_init := fun _ => None;
     mail_send := fun _ _ => None |}.

(** The transport fails on the first send of a request. *)
Definition env_first_send_fails : environment :=
  {| ADMIN_EMAIL := Some (lit "admin@exodus.example");
     clock := stamp;
     Message_init := fun _ => None;
     mail_send := fun earlier _ =>
                    match earlier with
                    | [] => Some MailTransportError
                    | _ :: _ => None
                    end |}.

(** The first send raises an exception that is not a transport failure. *)
Definition env_send_value_error : environment :=
  {| ADMIN_EMAIL := Some (lit "admin@exodus.example");
     clock := stamp;
     Message_init := fun _ => None;
     mail_send := fun _ _ => Some (OtherError "ValueError") |}.

(** The constructor of the message raises. *)
Definition env_build_fails : environment :=
  {| ADMIN_EMAIL := Some (lit "admin@exodus.example");
     clock := stamp;
     Message_init := fun _ => Some (OtherError "TypeError");
     mail_send := fun _ _ => None |}.

(** Scenario A of the specification, and what it is sanitized to. *)
Definition body_A : dict := mk_dict "Jo" "jo@example.com" "Hello there, testing".

Definition sub_A : SanitizedSubmission :=
  {| name := lit "Jo";
     email := lit "jo@example.com";
     phone := [];
     message_text := lit "Hello there, testing";
     timestamp := stamp |}.

(** Scenario B of the specification. *)
Definition body_B : dict := mk_dict "J" "bad-email" "short".

Definition body_mixed_case : dict :=
  mk_dict "Jo" "  Jo.Doe@Example.COM " "Hello there, testing".

Definition body_short_phone : dict :=
  (K_phone, JString (lit "555-1234")) :: body_A.

(** A name that is a JSON number. *)
Definition body_numeric_name : dict :=
  [(K_name, JNumber (lit "5")); (K_email, JString (lit "jo@example.com"));
   (K_message, JString (lit "Hello there, testing"))].

(** A valid body whose name is thirty less-than signs, whose phone is ten
    digits and ten ampersands and whose message is three hundred
    ampersands. *)
Definition long_when_escaped : dict :=
  [(K_name, JString (repeat 60%N 30));
   (K_email, JString (lit "a@b.co"));
   (K_phone, JString (lit "1234567890" ++ repeat 38%N 10));
   (K_message, JString (repeat 38%N 300))].

(** ** Further vocabulary *)

(** The four keys the handler reads, and the six texts the validator can
    report. *)
Definition form_keys : list str := [K_name; K_email; K_phone; K_message].


(** Number of occurrences of a character. *)
Definition count (c : char) (s : str) : nat := length (filter (N.eqb c) s).

(** A submission with every field empty: the bare templates. *)
Definition blank : SanitizedSubmission :=
  {| name := []; email := []; phone := []; message_text := [];
     timestamp := [] |}.

Definition is_unhandled_log (ev : event) : bool :=
  match ev with
  | LoggedUnhandled _ => true
  | _ => false
  end.

Definition is_mail_log (ev : event) : bool :=
  match ev with
  | LoggedMailError _ => true
  | _ => false
  end.

(** The transport fails on the second send of a request. *)
Definition env_second_send_fails : environment :=
  {| ADMIN_EMAIL := Some (lit "admin@exodus.example");
     clock := stamp;
     Message_init := fun _ => None;
     mail_send := fun earlier _ =>
                    match earlier with
                    | [] => None
                    | _ :: _ => Some MailTransportError
                    end |}.

(** Scenario A with a tracking key the handler does not read. *)
Definition body_A_extra : dict := (lit "utm", JBool true) :: body_A.

(** Scenario A with blanks and a tab around the name. *)
Definition body_A_padded : dict :=
  (K_name, JString (lit "  " ++ lit "Jo" ++ [9%N; 32%N])) :: body_A.

(** A body whose name carries markup. *)
Definition body_markup : dict :=
  mk_dict "<b>Jo</b>" "jo@example.com" "Tom & Jerry <script>x</script>".

(** ** The handler as a relation

    [handled U E req r t]: the request [req] is answered with [r] and
    leaves the trace [t].  One rule per way through [contact]. *)

Inductive handled (U : unicode_tables) (E : environment) (req : option json)
  : response -> trace -> Prop :=
| H_bad_json :
    (forall data, req <> Some (JObject data)) ->
    handled U E req R_bad_json [Printed req]
| H_validation_raised data e :
    req = Some (JObject data) ->
    validate_contact_form U data = Raise e ->
    handled U E req R_internal_error [Printed req; LoggedUnhandled e]
| H_invalid data x l :
    req = Some (JObject data) ->
    validate_contact_form U data = Ok (x :: l) ->
    handled U E req (R_invalid (x :: l)) [Printed req]
| H_sanitize_raised data e :
    req = Some (JObject data) ->
    validate_contact_form U data = Ok [] ->
    sanitize U data (clock E) = Raise e ->
    handled U E req R_internal_error [Printed req; LoggedUnhandled e]
| H_admin_build_raised data sub e :
    req = Some (JObject data) ->
    validate_contact_form U data = Ok [] ->
    sanitize U data (clock E) = Ok sub ->
    Message_init E (admin_msg_args (ADMIN_EMAIL E) sub) = Some e ->
    handled U E req R_internal_error [Printed req; LoggedUnhandled e]
| H_user_build_raised data sub e :
    req = Some (JObject data) ->
    validate_contact_form U data = Ok [] ->
    sanitize U data (clock E) = Ok sub ->
    Message_init E (admin_msg_args (ADMIN_EMAIL E) sub) = None ->
    Message_init E (user_msg_args sub) = Some e ->
    handled U E req R_internal_error [Printed req; LoggedUnhandled e]
| H_first_send_raised data sub e :
    req = Some (JObject data) ->
    validate_contact_form U data = Ok [] ->
    sanitize U data (clock E) = Ok sub ->
    Message_init E (admin_msg_args (ADMIN_EMAIL E) sub) = None ->
    Message_init E (user_msg_args sub) = None ->
    mail_send E [] (admin_msg_args (ADMIN_EMAIL E) sub) = Some e ->
    handled U E req R_mail_unavailable
      [Printed req; SendAttempt (admin_msg_args (ADMIN_EMAIL E) sub);
       LoggedMailError e]
| H_second_send_raised data sub e :
    req = Some (JObject data) ->
    validate_contact_form U data = Ok [] ->
    sanitize U data (clock E) = Ok sub ->
    Message_init E (admin_msg_args (ADMIN_EMAIL E) sub) = None ->
    Message_init E (user_msg_args sub) = None ->
    mail_send E [] (admin_msg_args (ADMIN_EMAIL E) sub) = None ->
    mail_send E [admin_msg_args (ADMIN_EMAIL E) sub] (user_msg_args sub)
    = Some e ->
    handled U E req R_mail_unavailable
      [Printed req; SendAttempt (admin_msg_args (ADMIN_EMAIL E) sub);
       SendAttempt (user_msg_args sub); LoggedMailError e]
| H_sent data sub :
    req = Some (JObject data) ->
    validate_contact_form U data = Ok [] ->
    sanitize U data (clock E) = Ok sub ->
    Message_init E (admin_msg_args (ADMIN_EMAIL E) sub) = None ->
    Message_init E (user_msg_args sub) = None ->
    mail_send E [] (admin_msg_args (ADMIN_EMAIL E) sub) = None ->
    mail_send E [admin_msg_args (ADMIN_EMAIL E) sub] (user_msg_args sub)
    = None ->
    handled U E req R_sent
      [Printed req; SendAttempt (admin_msg_args (ADMIN_EMAIL E) sub);
       SendAttempt (user_msg_args sub)].

(** The request is answered with the given status code. *)
Definition answered (U : unicode_tables) (E : environment)
  (req : option json) (code : nat) : Prop :=
  exists r, fst (handle U E req) = Ok r /\ status r = code.

(* ================================================================== *)
(** * Properties *)
(* ================================================================== *)

(** ** Strings *)

Lemma char_eqb_eq (a b : char) : char_eqb a b = true <-> a = b.
Proof. unfold char_eqb. apply N.eqb_eq. Qed.

Lemma str_eqb_eq (a b : str) : str_eqb a b = true <-> a = b.
Proof.
  revert b. induction a as [|x a IH]; intros [|y b]; simpl;
    try (split; [discriminate | discriminate]).
  - split; reflexivity.
  - rewrite andb_true_iff, char_eqb_eq, IH.
    split; [intros [-> ->]; reflexivity | intros H; inversion H; auto].
Qed.

Lemma between_same (a c : N) : between a a c = N.eqb c a.
Proof.
  unfold between.
  destruct (N.eqb_spec c a) as [->|Hne].
  - rewrite N.leb_refl. reflexivity.
  - destruct (N.leb_spec a c), (N.leb_spec c a); simpl; try reflexivity; lia.
Qed.

Lemma dropwhile_head (p : char -> bool) (s : str) (c : char) (t : str) :
  dropwhile p s = c :: t -> p c = false.
Proof.
  induction s as [|x s IH]; simpl; [discriminate|].
  destruct (p x) eqn:Hx; [exact IH|].
  intros H. inversion H. subst. exact Hx.
Qed.

(** The last character of a stripped string is not whitespace. *)
Lemma strip_last (s t : str) (c : char) :
  strip s = t ++ [c] -> isspace c = false.
Proof.
  unfold strip, rstrip. intros H.
  apply (f_equal (@rev char)) in H.
  rewrite rev_involutive, rev_app_distr in H. simpl in H.
  eapply dropwhile_head; eauto.
Qed.

Lemma strip_rev_not_newline (s t : str) : rev (strip s) <> 10%N :: t.
Proof.
  intros H. apply (f_equal (@rev char)) in H.
  rewrite rev_involutive in H. simpl in H.
  apply strip_last in H. vm_compute in H. discriminate.
Qed.

Lemma replace1_app (old : char) (new a b : str) :
  replace1 old new (a ++ b) = replace1 old new a ++ replace1 old new b.
Proof. unfold replace1. apply flat_map_app. Qed.

(** ** Regular expressions: the matcher computes the meaning *)

Lemma Matches_nil_nullable (r : regex) : Matches r [] -> nullable r = true.
Proof.
  induction r; intros H; inversion H; subst; simpl; auto.
  - match goal with
    | [ X : ?s ++ ?t = [] |- _ ] => apply app_eq_nil in X; destruct X; subst
    end.
    rewrite IHr1, IHr2; auto.
  - rewrite IHr1; auto.
  - rewrite IHr2; auto using orb_true_r.
Qed.

Lemma nullable_Matches_nil (r : regex) : nullable r = true -> Matches r [].
Proof.
  induction r; simpl; intros H; try discriminate.
  - constructor.
  - apply andb_true_iff in H. destruct H.
    change (@nil char) with (@nil char ++ []). constructor; auto.
  - apply orb_true_iff in H. destruct H; [apply M_AltL | apply M_AltR]; auto.
  - constructor.
Qed.

Lemma deriv_sound (c : char) (r : regex) :
  forall s, Matches (deriv c r) s -> Matches r (c :: s).
Proof.
  induction r; simpl; intros s H.
  - inversion H.
  - inversion H.
  - destruct (in_class l c) eqn:Hc; inversion H; subst.
    constructor. exact Hc.
  - destruct (nullable r1) eqn:Hn.
    + inversion H; subst.
      * match goal with
        | [ X : Matches (Cat _ _) _ |- _ ] => inversion X; subst
        end.
        change (c :: s0 ++ t) with ((c :: s0) ++ t). constructor; auto.
      * change (c :: s) with ([] ++ c :: s).
        constructor; auto using nullable_Matches_nil.
    + inversion H; subst.
      change (c :: s0 ++ t) with ((c :: s0) ++ t). constructor; auto.
  - inversion H; subst; [apply M_AltL | apply M_AltR]; auto.
  - inversion H; subst.
    change (c :: s0 ++ t) with ((c :: s0) ++ t). constructor; auto.
Qed.

Lemma deriv_complete (c : char) (r : regex) (s : str) :
  Matches r (c :: s) -> Matches (deriv c r) s.
Proof.
  intros H. remember (c :: s) as w eqn:Hw. revert s Hw.
  induction H; intros u Hw; simpl.
  - discriminate.
  - inversion Hw; subst. rewrite H. constructor.
  - destruct s as [|x s'].
    + simpl in Hw. subst t.
      rewrite (Matches_nil_nullable H). apply M_AltR. auto.
    + simpl in Hw. inversion Hw; subst.
      destruct (nullable a); [apply M_AltL|]; constructor; auto.
  - apply M_AltL. auto.
  - apply M_AltR. auto.
  - discriminate.
  - destruct s as [|x s'].
    + simpl in Hw. apply IHMatches2 in Hw. exact Hw.
    + simpl in Hw. inversion Hw; subst. constructor; auto.
Qed.

Theorem accepts_correct (r : regex) (s : str) :
  accepts r s = true <-> Matches r s.
Proof.
  revert r. induction s as [|c s IH]; intros r; simpl.
  - split; [apply nullable_Matches_nil | apply Matches_nil_nullable].
  - rewrite IH. split; [apply deriv_sound | apply deriv_complete].
Qed.

(** Repetitions of one character class. *)

Lemma Matches_class_inv (rs : list (char * char)) (s : str) :
  Matches (Class rs) s -> exists c, s = [c] /\ in_class rs c = true.
Proof. intros H. inversion H; subst. eauto. Qed.

Lemma Matches_star_class (rs : list (char * char)) (s : str) :
  Matches (Star (Class rs)) s <-> forallb (in_class rs) s = true.
Proof.
  split.
  - intros H. remember (Star (Class rs)) as r eqn:Hr.
    induction H; try discriminate; [reflexivity|].
    inversion Hr; subst.
    apply Matches_class_inv in H. destruct H as (c & -> & Hc).
    simpl. rewrite Hc. auto.
  - induction s as [|c s IH]; simpl; intros H; [constructor|].
    apply andb_true_iff in H. destruct H as [Hc Hs].
    change (c :: s) with ([c] ++ s). constructor; [constructor|]; auto.
Qed.

Lemma Matches_cat_inv (a b : regex) (s : str) :
  Matches (Cat a b) s <->
  exists u v, s = u ++ v /\ Matches a u /\ Matches b v.
Proof.
  split.
  - intros H. inversion H; subst. eauto.
  - intros (u & v & -> & Ha & Hb). constructor; auto.
Qed.

Lemma Matches_chr (c : char) (s : str) : Matches (Chr c) s <-> s = [c].
Proof.
  unfold Chr. split.
  - intros H. apply Matches_class_inv in H. destruct H as (x & -> & Hx).
    unfold in_class in Hx. simpl in Hx. rewrite orb_false_r, between_same in Hx.
    apply N.eqb_eq in Hx. subst. reflexivity.
  - intros ->. constructor. unfold in_class. simpl.
    rewrite orb_false_r, between_same. apply N.eqb_refl.
Qed.

Lemma Matches_plus_class (rs : list (char * char)) (s : str) :
  Matches (Plus (Class rs)) s <-> s <> [] /\ forallb (in_class rs) s = true.
Proof.
  unfold Plus. rewrite Matches_cat_inv. split.
  - intros (u & v & -> & Hu & Hv).
    apply Matches_class_inv in Hu. destruct Hu as (c & -> & Hc).
    apply Matches_star_class in Hv. simpl. rewrite Hc, Hv.
    split; [discriminate | reflexivity].
  - intros [Hne H]. destruct s as [|c s]; [congruence|].
    simpl in H. apply andb_true_iff in H. destruct H as [Hc Hs].
    exists [c], s. repeat split.
    + constructor. exact Hc.
    + apply Matches_star_class. exact Hs.
Qed.

Lemma Matches_atleast2_class (rs : list (char * char)) (s : str) :
  Matches (AtLeast2 (Class rs)) s <->
  2 <= length s /\ forallb (in_class rs) s = true.
Proof.
  unfold AtLeast2. rewrite Matches_cat_inv. split.
  - intros (u & v & -> & Hu & Hv).
    apply Matches_class_inv in Hu. destruct Hu as (c & -> & Hc).
    apply (Matches_plus_class rs v) in Hv. destruct Hv as [Hne Hv].
    simpl. rewrite Hc, Hv. split; [|reflexivity].
    destruct v; [congruence | simpl; lia].
  - intros [Hlen H]. destruct s as [|c s]; [simpl in Hlen; lia|].
    simpl in H. apply andb_true_iff in H. destruct H as [Hc Hs].
    exists [c], s. repeat split.
    + constructor. exact Hc.
    + apply (Matches_plus_class rs s). split; [|exact Hs].
      destruct s; [simpl in Hlen; lia | discriminate].
Qed.

(** ** The email pattern and the regular expression *)

Lemma forallb_pointwise (p q : char -> bool) (s : str) :
  (forall c, p c = q c) -> forallb p s = forallb q s.
Proof. intros H. induction s; simpl; [|rewrite H, IHs]; reflexivity. Qed.

Ltac split_ranges c :=
  repeat match goal with
         | |- context [between ?a ?b c] => destruct (between a b c)
         | |- context [N.eqb c ?a] => destruct (N.eqb c a)
         end.

Lemma local_class_spec (c : char) : in_class local_class c = local_char c.
Proof.
  unfold in_class, local_class, local_char, letter, ascii_digit, one_of.
  cbn [existsb app alnum_ranges fst snd]. rewrite !between_same.
  change (lit "._%+-") with [46; 95; 37; 43; 45]%N. cbn [existsb].
  split_ranges c; reflexivity.
Qed.

Lemma domain_class_spec (c : char) : in_class domain_class c = domain_char c.
Proof.
  unfold in_class, domain_class, domain_char, letter, ascii_digit, one_of.
  cbn [existsb app alnum_ranges fst snd]. rewrite !between_same.
  change (lit ".-") with [46; 45]%N. cbn [existsb].
  split_ranges c; reflexivity.
Qed.

Lemma alpha_class_spec (c : char) : in_class alpha_class c = letter c.
Proof.
  unfold in_class, alpha_class, letter. cbn [existsb fst snd].
  split_ranges c; reflexivity.
Qed.

Lemma email_regex_spec (s : str) : Matches email_regex s <-> EmailPattern s.
Proof.
  unfold email_regex, EmailPattern. split.
  - intros H.
    apply Matches_cat_inv in H. destruct H as (l & r1 & -> & Hl & H).
    apply Matches_cat_inv in H. destruct H as (a & r2 & -> & Ha & H).
    apply Matches_cat_inv in H. destruct H as (d & r3 & -> & Hd & H).
    apply Matches_cat_inv in H. destruct H as (b & t & -> & Hb & Ht).
    apply Matches_chr in Ha. apply Matches_chr in Hb. subst a b.
    apply Matches_plus_class in Hl. destruct Hl as [Hl1 Hl2].
    apply Matches_plus_class in Hd. destruct Hd as [Hd1 Hd2].
    apply Matches_atleast2_class in Ht. destruct Ht as [Ht1 Ht2].
    exists l, d, t. repeat split; auto.
    + rewrite <- Hl2. symmetry. apply forallb_pointwise, local_class_spec.
    + rewrite <- Hd2. symmetry. apply forallb_pointwise, domain_class_spec.
    + rewrite <- Ht2. symmetry. apply forallb_pointwise, alpha_class_spec.
  - intros (l & d & t & -> & Hl1 & Hl2 & Hd1 & Hd2 & Ht1 & Ht2).
    constructor.
    { apply Matches_plus_class. split; [exact Hl1|].
      rewrite <- Hl2. apply forallb_pointwise, local_class_spec. }
    constructor; [apply Matches_chr; reflexivity|].
    constructor.
    { apply Matches_plus_class. split; [exact Hd1|].
      rewrite <- Hd2. apply forallb_pointwise, domain_class_spec. }
    constructor; [apply Matches_chr; reflexivity|].
    apply Matches_atleast2_class. split; [exact Ht1|].
    rewrite <- Ht2. apply forallb_pointwise, alpha_class_spec.
Qed.

(** On a stripped string the [$] anchor can only hold at the very end, so
    [re.match] decides the pattern. *)
Lemma re_match_strip (s : str) :
  re_match email_regex (strip s) = true <-> EmailPattern (strip s).
Proof.
  unfold re_match. rewrite orb_true_iff, accepts_correct, email_regex_spec.
  split; [|auto]. intros [H|H]; [exact H|].
  destruct (rev (strip s)) as [|c t] eqn:Hr; [discriminate|].
  destruct (N.eqb_spec c 10) as [->|Hne].
  - exfalso. exact (strip_rev_not_newline _ Hr).
  - exfalso. revert H. clear -Hne.
    destruct c as [|p]; [discriminate|].
    do 4 (destruct p as [p|p|]; try discriminate). congruence.
Qed.

Lemma re_sub_class_filter (p : char -> bool) (s : str) :
  re_sub_class (fun c => negb (p c)) [] s = filter p s.
Proof.
  unfold re_sub_class. induction s as [|c s IH]; simpl; [reflexivity|].
  rewrite IH. destruct (p c); reflexivity.
Qed.

Lemma validate_strings (U : unicode_tables) (data : dict) (n e p m : str) :
  field data K_name = JString n ->
  field data K_email = JString e ->
  field data K_phone = JString p ->
  field data K_message = JString m ->
  validate_contact_form U data
  = Ok (name_errors (strip n) ++ email_errors (strip e)
        ++ phone_errors U (strip p) ++ message_errors (strip m)).
Proof.
  unfold field, validate_contact_form. intros -> -> -> ->.
  cbn [method_strip rbind].
  unfold name_errors, email_errors, phone_errors, message_errors, digit_count.
  rewrite re_sub_class_filter.
  destruct (length (strip n) <? 2); [|destruct (100 <? length (strip n))];
    (destruct (re_match email_regex (strip e)); cbn [negb];
     (destruct (strip p) as [|c p'];
      [|destruct ((length (filter (is_decimal U) (c :: p')) <? 10)
                  || (15 <? length (filter (is_decimal U) (c :: p'))))];
      (destruct (length (strip m) <? 10);
       [|destruct (1000 <? length (strip m))]; reflexivity))).
Qed.

Lemma validate_ok_inv (U : unicode_tables) (data : dict) (errs : list str) :
  validate_contact_form U data = Ok errs ->
  exists n e p m,
    field data K_name = JString n /\ field data K_email = JString e
    /\ field data K_phone = JString p /\ field data K_message = JString m
    /\ errs = name_errors (strip n) ++ email_errors (strip e)
              ++ phone_errors U (strip p) ++ message_errors (strip m).
Proof.
  intros H.
  destruct (field data K_name) as [| | |n| |] eqn:Hn;
    try (unfold validate_contact_form in H; unfold field in Hn;
         rewrite Hn in H; discriminate H).
  destruct (field data K_email) as [| | |e| |] eqn:He;
    try (unfold validate_contact_form in H; unfold field in Hn, He;
         rewrite Hn, He in H; discriminate H).
  destruct (field data K_phone) as [| | |p| |] eqn:Hp;
    try (unfold validate_contact_form in H; unfold field in Hn, He, Hp;
         rewrite Hn, He, Hp in H; discriminate H).
  destruct (field data K_message) as [| | |m| |] eqn:Hm;
    try (unfold validate_contact_form in H; unfold field in Hn, He, Hp, Hm;
         rewrite Hn, He, Hp, Hm in H; discriminate H).
  rewrite (validate_strings U data Hn He Hp Hm) in H.
  inversion H. exists n, e, p, m. repeat split; auto.
Qed.

(** The six error texts are pairwise different. *)
Ltac texts_differ :=
  let X := fresh in intros X; vm_compute in X; discriminate X.

Lemma in_name_errors (x n : str) :
  In x (name_errors n) ->
  (x = E_name_short /\ length n < 2) \/ (x = E_name_long /\ 100 < length n).
Proof.
  unfold name_errors.
  destruct (Nat.ltb_spec (length n) 2); [|destruct (Nat.ltb_spec 100 (length n))];
    simpl; intros Hx; intuition auto.
Qed.

Lemma in_message_errors (x m : str) :
  In x (message_errors m) ->
  (x = E_message_short /\ length m < 10)
  \/ (x = E_message_long /\ 1000 < length m).
Proof.
  unfold message_errors.
  destruct (Nat.ltb_spec (length m) 10);
    [|destruct (Nat.ltb_spec 1000 (length m))];
    simpl; intros Hx; intuition auto.
Qed.

Lemma in_email_errors (x e : str) :
  In x (email_errors e) -> x = E_email /\ re_match email_regex e = false.
Proof.
  unfold email_errors. destruct (re_match email_regex e); simpl;
    intros Hx; intuition auto.
Qed.

Lemma in_phone_errors (U : unicode_tables) (x p : str) :
  In x (phone_errors U p) ->
  x = E_phone /\ p <> []
  /\ (digit_count U p < 10 \/ 15 < digit_count U p).
Proof.
  unfold phone_errors. destruct p as [|c p]; [intros []|].
  destruct (Nat.ltb_spec (digit_count U (c :: p)) 10);
    destruct (Nat.ltb_spec 15 (digit_count U (c :: p)));
    simpl; intros Hx; intuition (auto; discriminate).
Qed.

Ltac in_four H :=
  rewrite !in_app_iff in H;
  destruct H as [H|[H|[H|H]]];
  [apply in_name_errors in H; destruct H as [[H ?]|[H ?]]
  |apply in_email_errors in H; destruct H as [H ?]
  |apply in_phone_errors in H; destruct H as (H & ? & ?)
  |apply in_message_errors in H; destruct H as [[H ?]|[H ?]]];
  try (exfalso; revert H; texts_differ).

(* ------------------------------------------------------------------ *)
(** ** The validator *)
(* ------------------------------------------------------------------ *)

(** C4. Whenever the validator returns, the too-short name error is
    reported exactly when the trimmed name has fewer than 2 characters and
    the too-long one exactly when it has more than 100; likewise for the
    message with 10 and 1000.  The two texts of a field are different. *)
Theorem C4_name_message_length_rules
  (U : unicode_tables) (data : dict) (errs : list str) (n m : str) :
  validate_contact_form U data = Ok errs ->
  field data K_name = JString n ->
  field data K_message = JString m ->
  (In E_name_short errs <-> length (strip n) < 2)
  /\ (In E_name_long errs <-> 100 < length (strip n))
  /\ (In E_message_short errs <-> length (strip m) < 10)
  /\ (In E_message_long errs <-> 1000 < length (strip m))
  /\ E_name_short <> E_name_long
  /\ E_message_short <> E_message_long.
Proof.
  intros Hv Hn Hm.
  apply validate_ok_inv in Hv.
  destruct Hv as (n' & e & p & m' & Hn' & He & Hp & Hm' & ->).
  rewrite Hn in Hn'. rewrite Hm in Hm'.
  inversion Hn'; inversion Hm'; subst n' m'. clear Hn' Hm'.
  repeat split; try texts_differ.
  - intros H. in_four H. assumption.
  - intros H. rewrite !in_app_iff. left. unfold name_errors.
    apply Nat.ltb_lt in H. rewrite H. left. reflexivity.
  - intros H. in_four H. assumption.
  - intros H. rewrite !in_app_iff. left. unfold name_errors.
    destruct (Nat.ltb_spec (length (strip n)) 2); [lia|].
    apply Nat.ltb_lt in H. rewrite H. left. reflexivity.
  - intros H. in_four H. assumption.
  - intros H. rewrite !in_app_iff. do 3 right. unfold message_errors.
    apply Nat.ltb_lt in H. rewrite H. left. reflexivity.
  - intros H. in_four H. assumption.
  - intros H. rewrite !in_app_iff. do 3 right. unfold message_errors.
    destruct (Nat.ltb_spec (length (strip m)) 10); [lia|].
    apply Nat.ltb_lt in H. rewrite H. left. reflexivity.
Qed.

(** C6. Whenever the validator returns: a phone that is absent, or empty
    once trimmed, yields no phone error whatever the other fields hold; a
    phone that is not empty once trimmed yields the phone error exactly
    when the number of digits left after removing every non-digit is below
    10 or above 15. *)
Theorem C6_phone_rule
  (U : unicode_tables) (data : dict) (errs : list str) (p : str) :
  validate_contact_form U data = Ok errs ->
  field data K_phone = JString p ->
  (lookup data K_phone = None \/ strip p = [] -> ~ In E_phone errs)
  /\ (strip p <> [] ->
      (In E_phone errs <->
       digit_count U (strip p) < 10 \/ 15 < digit_count U (strip p))).
Proof.
  intros Hv Hp.
  apply validate_ok_inv in Hv.
  destruct Hv as (n & e & p' & m & Hn & He & Hp' & Hm & ->).
  rewrite Hp in Hp'. inversion Hp'; subst p'. clear Hp'.
  split.
  - intros Hempty H.
    assert (Hs : strip p = []).
    { destruct Hempty as [Hnone|Hs]; [|exact Hs].
      unfold field, dict_get in Hp. rewrite Hnone in Hp.
      inversion Hp. reflexivity. }
    in_four H. congruence.
  - intros Hne. split.
    + intros H. in_four H. assumption.
    + intros H. rewrite !in_app_iff. right. right. left.
      unfold phone_errors. destruct (strip p) as [|c q]; [congruence|].
      assert (Hb : (digit_count U (c :: q) <? 10)
                   || (15 <? digit_count U (c :: q)) = true).
      { apply orb_true_iff.
        destruct H; [left|right]; apply Nat.ltb_lt; assumption. }
      rewrite Hb. left. reflexivity.
Qed.

Lemma field_text (data : dict) (k : str) :
  absent_or_string data k -> field data k = JString (text data k).
Proof.
  unfold absent_or_string, field, dict_get, text.
  intros [->|[s ->]]; reflexivity.
Qed.

(** C7. When each of the four keys is absent or bound to a string, the
    validator returns (it does not raise on a missing key), and its result
    is the errors of the name rule, then of the email rule, then of the
    phone rule, then of the message rule, each computed from its own field
    alone, an absent field counting as the empty string. *)
Theorem C7_all_rules_in_order (U : unicode_tables) (data : dict) :
  (forall k, In k [K_name; K_email; K_phone; K_message] ->
             absent_or_string data k) ->
  validate_contact_form U data
  = Ok (name_errors (strip (text data K_name))
        ++ email_errors (strip (text data K_email))
        ++ phone_errors U (strip (text data K_phone))
        ++ message_errors (strip (text data K_message))).
Proof.
  intros H.
  apply validate_strings; apply field_text, H; simpl; auto.
Qed.

(* ------------------------------------------------------------------ *)
(** ** HTML escaping *)
(* ------------------------------------------------------------------ *)

Lemma replace1_other (old : char) (new : str) (c : char) :
  c <> old -> replace1 old new [c] = [c].
Proof.
  intros H. unfold replace1, char_eqb. simpl.
  destruct (N.eqb_spec c old); [contradiction | reflexivity].
Qed.

Lemma escape_app (a b : str) : escape (a ++ b) = escape a ++ escape b.
Proof. unfold escape. rewrite !replace1_app. reflexivity. Qed.

Lemma escape_single (c : char) : escape [c] = escape_char c.
Proof.
  unfold escape_char.
  destruct (N.eqb_spec c 38) as [->|H1]; [reflexivity|].
  destruct (N.eqb_spec c 62) as [->|H2]; [reflexivity|].
  destruct (N.eqb_spec c 60) as [->|H3]; [reflexivity|].
  destruct (N.eqb_spec c 39) as [->|H4]; [reflexivity|].
  destruct (N.eqb_spec c 34) as [->|H5]; [reflexivity|].
  unfold escape. rewrite !replace1_other by assumption. reflexivity.
Qed.

Lemma escape_flat_map (s : str) : escape s = flat_map escape_char s.
Proof.
  induction s as [|c s IH]; [reflexivity|].
  change (c :: s) with ([c] ++ s).
  rewrite escape_app, escape_single, IH. reflexivity.
Qed.

Lemma escape_char_cases (c : char) :
  (special c = false /\ escape_char c = [c])
  \/ (special c = true /\ In (escape_char c) entities).
Proof.
  unfold escape_char, special, one_of. cbn [existsb].
  destruct (N.eqb_spec c 38) as [->|H1]; [right; simpl; auto|].
  destruct (N.eqb_spec c 62) as [->|H2]; [right; simpl; auto|].
  destruct (N.eqb_spec c 60) as [->|H3]; [right; simpl; auto 6|].
  destruct (N.eqb_spec c 39) as [->|H4]; [right; simpl; auto 6|].
  destruct (N.eqb_spec c 34) as [->|H5]; [right; simpl; auto 8|].
  left. auto.
Qed.

Lemma escape_char_length (c : char) :
  1 <= length (escape_char c) <= 5.
Proof.
  destruct (escape_char_cases c) as [[_ ->]|[_ H]]; [simpl; lia|].
  simpl in H. destruct H as [<-|[<-|[<-|[<-|[<-|[]]]]]]; simpl; lia.
Qed.

Lemma escape_length (s : str) :
  length s <= length (escape s) <= 5 * length s.
Proof.
  rewrite escape_flat_map. induction s as [|c s IH]; simpl; [lia|].
  rewrite length_app. pose proof (escape_char_length c). lia.
Qed.

Lemma escape_plain (s : str) :
  forallb (fun c => negb (special c)) s = true -> escape s = s.
Proof.
  rewrite escape_flat_map. induction s as [|c s IH]; simpl; [reflexivity|].
  intros H. apply andb_true_iff in H. destruct H as [Hc Hs].
  rewrite (IH Hs).
  destruct (escape_char_cases c) as [[_ ->]|[Hsp _]]; [reflexivity|].
  rewrite Hsp in Hc. discriminate.
Qed.

(** The output of [escape] holds no less-than, greater-than, apostrophe or
    double quote. *)
Lemma escape_no_raw_markup (s : str) (c : char) :
  In c (escape s) -> raw_markup c = false.
Proof.
  rewrite escape_flat_map. rewrite in_flat_map. intros (x & _ & Hc).
  destruct (escape_char_cases x) as [[Hx Hs]|[_ Hs]].
  - rewrite Hs in Hc. destruct Hc as [<-|[]].
    revert Hx. unfold special, raw_markup, one_of. cbn [existsb].
    intros Hx. apply orb_false_iff in Hx. tauto.
  - simpl in Hs.
    destruct Hs as [Hs|[Hs|[Hs|[Hs|[Hs|[]]]]]]; rewrite <- Hs in Hc;
      simpl in Hc; intuition (subst; reflexivity).
Qed.

Lemma entity_ampersand_first (e : str) (i : nat) :
  In e entities -> nth_error e i = Some 38%N -> i = 0.
Proof.
  simpl. intros [<-|[<-|[<-|[<-|[<-|[]]]]]];
    do 6 (destruct i as [|i]; [simpl; try reflexivity; discriminate|]);
    simpl; destruct i; discriminate.
Qed.

(** In the output of [escape] every ampersand opens an entity. *)
Lemma escape_ampersands (s : str) : ampersands_escaped (escape s).
Proof.
  rewrite escape_flat_map. unfold ampersands_escaped.
  induction s as [|c s IH]; intros i Hi.
  - destruct i; discriminate.
  - cbn [flat_map] in *.
    destruct (Nat.lt_ge_cases i (length (escape_char c))) as [Hlt|Hge].
    + rewrite nth_error_app1 in Hi by assumption.
      destruct (escape_char_cases c) as [[Hsp Hc]|[_ He]].
      * rewrite Hc in Hi, Hlt. simpl in Hlt.
        assert (i = 0) by lia. subst i. simpl in Hi. inversion Hi; subst c.
        discriminate Hsp.
      * assert (i = 0) by (eapply entity_ampersand_first; eauto). subst i.
        exists (escape_char c). split; [exact He|].
        cbn [skipn]. rewrite firstn_app, Nat.sub_diag, firstn_all.
        cbn [firstn]. apply app_nil_r.
    + rewrite nth_error_app2 in Hi by assumption.
      destruct (IH _ Hi) as (e & He & Hf).
      exists e. split; [exact He|].
      rewrite skipn_app.
      rewrite (skipn_all2 (escape_char c)) by assumption.
      exact Hf.
Qed.

Lemma unescape_escape_char (c : char) (r : str) :
  unescape_from 0 (escape_char c ++ r) = c :: unescape_from 0 r.
Proof.
  unfold escape_char.
  destruct (N.eqb_spec c 38) as [->|H1]; [reflexivity|].
  destruct (N.eqb_spec c 62) as [->|H2]; [reflexivity|].
  destruct (N.eqb_spec c 60) as [->|H3]; [reflexivity|].
  destruct (N.eqb_spec c 39) as [->|H4]; [reflexivity|].
  destruct (N.eqb_spec c 34) as [->|H5]; [reflexivity|].
  simpl. destruct (N.eqb_spec c 38); [contradiction | reflexivity].
Qed.

(** Decoding undoes one pass of [escape]. *)
Lemma unescape_escape (s : str) : unescape (escape s) = s.
Proof.
  unfold unescape. rewrite escape_flat_map.
  induction s as [|c s IH]; [reflexivity|].
  cbn [flat_map]. rewrite unescape_escape_char, IH. reflexivity.
Qed.

(** C8. Escaping the output of [escape] once more is defined for every
    string and never un-escapes: the result holds no less-than,
    greater-than, apostrophe or double quote, every ampersand in it opens an
    entity, and decoding it once gives back the output of the first pass
    (which itself decodes to the original). *)
Theorem C8_escape_twice_stays_escaped (s : str) :
  (forall c, In c (escape (escape s)) -> raw_markup c = false)
  /\ ampersands_escaped (escape (escape s))
  /\ unescape (escape (escape s)) = escape s
  /\ unescape (unescape (escape (escape s))) = s.
Proof.
  repeat split.
  - intros c. apply escape_no_raw_markup.
  - apply escape_ampersands.
  - apply unescape_escape.
  - rewrite !unescape_escape. reflexivity.
Qed.

(** The second pass is not the identity: escaping is not idempotent on
    plain strings, it adds a layer. *)
Example escape_twice_ampersand :
  escape (lit "&") = lit "&amp;"
  /\ escape (escape (lit "&")) = lit "&amp;amp;".
Proof. split; reflexivity. Qed.

(* ------------------------------------------------------------------ *)
(** ** From a valid body to the sanitized submission *)
(* ------------------------------------------------------------------ *)

Lemma field_present (data : dict) (k s : str) :
  field data k = JString s -> s <> [] -> lookup data k = Some (JString s).
Proof.
  unfold field, dict_get. destruct (lookup data k) as [v|].
  - intros ->. reflexivity.
  - intros H Hne. inversion H. congruence.
Qed.

Lemma strip_nil_of_nil (s : str) : s = [] -> strip s = [].
Proof. intros ->. reflexivity. Qed.

(** What an empty error list says about the four fields. *)
Lemma valid_fields (U : unicode_tables) (data : dict) :
  validate_contact_form U data = Ok [] ->
  exists n e p m,
    lookup data K_name = Some (JString n)
    /\ lookup data K_email = Some (JString e)
    /\ field data K_phone = JString p
    /\ lookup data K_message = Some (JString m)
    /\ 2 <= length (strip n) <= 100
    /\ EmailPattern (strip e)
    /\ phone_errors U (strip p) = []
    /\ 10 <= length (strip m) <= 1000.
Proof.
  intros H. apply validate_ok_inv in H.
  destruct H as (n & e & p & m & Hn & He & Hp & Hm & Hnil).
  symmetry in Hnil.
  apply app_eq_nil in Hnil. destruct Hnil as [En Hnil].
  apply app_eq_nil in Hnil. destruct Hnil as [Ee Hnil].
  apply app_eq_nil in Hnil. destruct Hnil as [Ep Em].
  assert (Ln : 2 <= length (strip n) <= 100).
  { revert En. unfold name_errors.
    destruct (Nat.ltb_spec (length (strip n)) 2); [discriminate|].
    destruct (Nat.ltb_spec 100 (length (strip n))); [discriminate|]. lia. }
  assert (Lm : 10 <= length (strip m) <= 1000).
  { revert Em. unfold message_errors.
    destruct (Nat.ltb_spec (length (strip m)) 10); [discriminate|].
    destruct (Nat.ltb_spec 1000 (length (strip m))); [discriminate|]. lia. }
  assert (Pe : EmailPattern (strip e)).
  { apply re_match_strip. revert Ee. unfold email_errors.
    destruct (re_match email_regex (strip e)); [reflexivity | discriminate]. }
  exists n, e, p, m. repeat split; try assumption; try lia.
  - apply field_present; [exact Hn|].
    intros X. apply strip_nil_of_nil in X. rewrite X in Ln. simpl in Ln. lia.
  - apply field_present; [exact He|].
    intros X. apply strip_nil_of_nil in X.
    apply re_match_strip in Pe. rewrite X in Pe. discriminate Pe.
  - apply field_present; [exact Hm|].
    intros X. apply strip_nil_of_nil in X. rewrite X in Lm. simpl in Lm. lia.
Qed.

Lemma sanitize_present (U : unicode_tables) (data : dict) (n e p m ts : str) :
  lookup data K_name = Some (JString n) ->
  lookup data K_email = Some (JString e) ->
  field data K_phone = JString p ->
  lookup data K_message = Some (JString m) ->
  sanitize U data ts
  = Ok {| name := escape (firstn 100 (strip n));
          email := escape (lower U (strip e));
          phone := escape (firstn 20 (strip p));
          message_text := escape (firstn 1000 (strip m));
          timestamp := ts |}.
Proof.
  unfold sanitize, dict_index, field. intros -> -> -> ->. reflexivity.
Qed.

(** C9. An empty error list for a body that is a JSON object implies that
    the keys name, email and message are present and bound to strings;
    hence the direct indexing of the sanitizer raises nothing and a
    sanitized submission is built, whether or not phone is present: phone
    alone is read with a default, and an absent phone is sanitized to the
    empty string. *)
Theorem C9_valid_body_has_required_keys (U : unicode_tables) (data : dict) :
  validate_contact_form U data = Ok [] ->
  (exists n e m,
      lookup data K_name = Some (JString n)
      /\ lookup data K_email = Some (JString e)
      /\ lookup data K_message = Some (JString m))
  /\ (forall ts, exists sub,
        sanitize U data ts = Ok sub
        /\ (lookup data K_phone = None -> phone sub = [])).
Proof.
  intros H. apply valid_fields in H.
  destruct H as (n & e & p & m & Hn & He & Hp & Hm & _).
  split.
  - exists n, e, m. auto.
  - intros ts. eexists.
    split; [apply (sanitize_present U data ts Hn He Hp Hm)|].
    intros Hnone. unfold field, dict_get in Hp. rewrite Hnone in Hp.
    inversion Hp. reflexivity.
Qed.

(** ** Lengths after sanitization *)

(** C2, as stated, fails: the body [long_when_escaped] passes validation,
    and its sanitized name, phone and message are 120, 60 and 1500
    characters long. *)
Lemma C2_escaped_fields_exceed_maximum :
  validate_contact_form ascii_only long_when_escaped = Ok []
  /\ exists sub,
      sanitize ascii_only long_when_escaped stamp = Ok sub
      /\ length (name sub) = 120 /\ 100 < 120
      /\ length (phone sub) = 60 /\ 20 < 60
      /\ length (message_text sub) = 5 * 300 /\ 1000 < 5 * 300.
Proof.
  split; [vm_compute; reflexivity|].
  eexists. split; [vm_compute; reflexivity|].
  repeat split; try lia; vm_compute; reflexivity.
Qed.

(** C2, amended. For every body that passes validation the sanitized name,
    phone and message are the escaped form of the trimmed field cut to 100,
    20 and 1000 characters: the maximum bounds the text before escaping,
    and the escaped text is at most five times as long. *)
Theorem C2_sanitized_lengths (U : unicode_tables) (data : dict) (ts : str) :
  validate_contact_form U data = Ok [] ->
  exists n p m sub,
    field data K_name = JString n
    /\ field data K_phone = JString p
    /\ field data K_message = JString m
    /\ sanitize U data ts = Ok sub
    /\ name sub = escape (firstn 100 (strip n))
    /\ phone sub = escape (firstn 20 (strip p))
    /\ message_text sub = escape (firstn 1000 (strip m))
    /\ length (firstn 100 (strip n)) <= 100
    /\ length (firstn 20 (strip p)) <= 20
    /\ length (firstn 1000 (strip m)) <= 1000
    /\ length (name sub) <= 5 * 100
    /\ length (phone sub) <= 5 * 20
    /\ length (message_text sub) <= 5 * 1000.
Proof.
  intros H. apply valid_fields in H.
  destruct H as (n & e & p & m & Hn & He & Hp & Hm & _).
  exists n, p, m. eexists.
  split; [unfold field, dict_get; rewrite Hn; reflexivity|].
  split; [exact Hp|].
  split; [unfold field, dict_get; rewrite Hm; reflexivity|].
  split; [apply (sanitize_present U data ts Hn He Hp Hm)|].
  cbn [name phone message_text].
  pose proof (firstn_le_length 100 (strip n)).
  pose proof (firstn_le_length 20 (strip p)).
  pose proof (firstn_le_length 1000 (strip m)).
  pose proof (escape_length (firstn 100 (strip n))).
  pose proof (escape_length (firstn 20 (strip p))).
  pose proof (escape_length (firstn 1000 (strip m))).
  repeat split; try reflexivity; lia.
Qed.

(* ------------------------------------------------------------------ *)
(** ** The email rule and the lower-casing of accepted emails *)
(* ------------------------------------------------------------------ *)

Lemma between_iff (a b c : N) : between a b c = true <-> (a <= c <= b)%N.
Proof. unfold between. rewrite andb_true_iff, !N.leb_le. tauto. Qed.

Lemma letter_iff (c : char) :
  letter c = true <-> (65 <= c <= 90 \/ 97 <= c <= 122)%N.
Proof. unfold letter. rewrite orb_true_iff, !between_iff. tauto. Qed.

Lemma local_char_iff (c : char) :
  local_char c = true <->
  (65 <= c <= 90 \/ 97 <= c <= 122 \/ 48 <= c <= 57
   \/ c = 46 \/ c = 95 \/ c = 37 \/ c = 43 \/ c = 45)%N.
Proof.
  unfold local_char, ascii_digit, one_of.
  change (lit "._%+-") with [46; 95; 37; 43; 45]%N. cbn [existsb].
  rewrite !orb_true_iff, letter_iff, between_iff, !N.eqb_eq.
  intuition (discriminate || lia).
Qed.

Lemma domain_char_iff (c : char) :
  domain_char c = true <->
  (65 <= c <= 90 \/ 97 <= c <= 122 \/ 48 <= c <= 57 \/ c = 46 \/ c = 45)%N.
Proof.
  unfold domain_char, ascii_digit, one_of.
  change (lit ".-") with [46; 45]%N. cbn [existsb].
  rewrite !orb_true_iff, letter_iff, between_iff, !N.eqb_eq.
  intuition (discriminate || lia).
Qed.

Lemma special_iff (c : char) :
  special c = true <-> (c = 38 \/ c = 60 \/ c = 62 \/ c = 39 \/ c = 34)%N.
Proof.
  unfold special, one_of. cbn [existsb].
  rewrite !orb_true_iff, !N.eqb_eq. intuition (discriminate || lia).
Qed.

Lemma email_char_iff (c : char) :
  email_char c = true <->
  (65 <= c <= 90 \/ 97 <= c <= 122 \/ 48 <= c <= 57
   \/ c = 46 \/ c = 95 \/ c = 37 \/ c = 43 \/ c = 45 \/ c = 64)%N.
Proof.
  unfold email_char. rewrite orb_true_iff, local_char_iff, N.eqb_eq. tauto.
Qed.

Lemma forallb_weaken (p q : char -> bool) (s : str) :
  (forall c, p c = true -> q c = true) ->
  forallb p s = true -> forallb q s = true.
Proof.
  intros H. rewrite !forallb_forall. auto.
Qed.

Lemma EmailPattern_chars (s : str) :
  EmailPattern s -> forallb email_char s = true.
Proof.
  intros (l & d & t & -> & _ & Hl & _ & Hd & _ & Ht).
  assert (Al : forallb email_char l = true).
  { revert Hl. apply forallb_weaken. intros c.
    rewrite email_char_iff, local_char_iff. tauto. }
  assert (Ad : forallb email_char d = true).
  { revert Hd. apply forallb_weaken. intros c.
    rewrite email_char_iff, domain_char_iff. tauto. }
  assert (At : forallb email_char t = true).
  { revert Ht. apply forallb_weaken. intros c.
    rewrite email_char_iff, letter_iff. tauto. }
  rewrite !forallb_app, Al, Ad, At. reflexivity.
Qed.

Lemma email_char_ascii (c : char) : email_char c = true -> is_ascii c = true.
Proof.
  rewrite email_char_iff. unfold is_ascii. rewrite N.ltb_lt. lia.
Qed.

Lemma email_char_plain (c : char) :
  email_char c = true -> negb (special c) = true.
Proof.
  rewrite email_char_iff. intros H.
  destruct (special c) eqn:Hs; [|reflexivity].
  apply special_iff in Hs. lia.
Qed.

Lemma tolower_cases (c : char) :
  ((65 <= c <= 90)%N /\ ascii_tolower c = (c + 32)%N)
  \/ (~ (65 <= c <= 90)%N /\ ascii_tolower c = c).
Proof.
  unfold ascii_tolower, ascii_upper.
  destruct (between 65 90 c) eqn:Hb.
  - apply between_iff in Hb. auto.
  - right. split; [|reflexivity]. rewrite <- between_iff, Hb. discriminate.
Qed.

Lemma tolower_not_upper (c : char) :
  negb (ascii_upper (ascii_tolower c)) = true.
Proof.
  destruct (ascii_upper (ascii_tolower c)) eqn:Hu; [|reflexivity].
  unfold ascii_upper in Hu. apply between_iff in Hu.
  destruct (tolower_cases c) as [[H E]|[H E]]; rewrite E in Hu; lia.
Qed.

Lemma tolower_letter (c : char) : letter (ascii_tolower c) = letter c.
Proof.
  apply eq_iff_eq_true. rewrite !letter_iff.
  destruct (tolower_cases c) as [[H E]|[H E]]; rewrite E; lia.
Qed.

Lemma tolower_local (c : char) : local_char (ascii_tolower c) = local_char c.
Proof.
  apply eq_iff_eq_true. rewrite !local_char_iff.
  destruct (tolower_cases c) as [[H E]|[H E]]; rewrite E; lia.
Qed.

Lemma tolower_domain (c : char) :
  domain_char (ascii_tolower c) = domain_char c.
Proof.
  apply eq_iff_eq_true. rewrite !domain_char_iff.
  destruct (tolower_cases c) as [[H E]|[H E]]; rewrite E; lia.
Qed.

Lemma tolower_punct (c k : char) :
  (k < 65)%N -> ascii_tolower c = k -> c = k.
Proof.
  intros Hk. destruct (tolower_cases c) as [[H E]|[H E]]; rewrite E; lia.
Qed.

Lemma forallb_map_tolower (p : char -> bool) (s : str) :
  (forall c, p (ascii_tolower c) = p c) ->
  forallb p (map ascii_tolower s) = forallb p s.
Proof.
  intros H. induction s as [|c s IH]; simpl; [|rewrite H, IH]; reflexivity.
Qed.

(** Acceptance does not depend on the case of the letters. *)
Lemma EmailPattern_lower (s : str) :
  EmailPattern s <-> EmailPattern (map ascii_tolower s).
Proof.
  unfold EmailPattern. change (lit "@") with [64%N]. change (lit ".") with [46%N].
  split.
  - intros (l & d & t & -> & Hl1 & Hl2 & Hd1 & Hd2 & Ht1 & Ht2).
    exists (map ascii_tolower l), (map ascii_tolower d), (map ascii_tolower t).
    rewrite !map_app, length_map.
    rewrite (forallb_map_tolower local_char l tolower_local).
    rewrite (forallb_map_tolower domain_char d tolower_domain).
    rewrite (forallb_map_tolower letter t tolower_letter).
    repeat split; auto.
    + intros X. apply map_eq_nil in X. contradiction.
    + intros X. apply map_eq_nil in X. contradiction.
  - intros (l & d & t & E & Hl1 & Hl2 & Hd1 & Hd2 & Ht1 & Ht2).
    apply map_eq_app in E. destruct E as (l' & r1 & -> & <- & E).
    simpl in E. apply map_eq_cons in E. destruct E as (a & r2 & -> & Ea & E).
    apply map_eq_app in E. destruct E as (d' & r3 & -> & <- & E).
    simpl in E. apply map_eq_cons in E. destruct E as (b & t' & -> & Eb & <-).
    apply tolower_punct in Ea; [|lia]. apply tolower_punct in Eb; [|lia].
    subst a b.
    rewrite (forallb_map_tolower local_char l' tolower_local) in Hl2.
    rewrite (forallb_map_tolower domain_char d' tolower_domain) in Hd2.
    rewrite (forallb_map_tolower letter t' tolower_letter) in Ht2.
    rewrite length_map in Ht1.
    exists l', d', t'. repeat split; auto.
    + intros ->. apply Hl1. reflexivity.
    + intros ->. apply Hd1. reflexivity.
Qed.

Lemma lower_ascii (U : unicode_tables) (s : str) :
  forallb is_ascii s = true -> lower U s = map ascii_tolower s.
Proof. unfold lower. intros ->. reflexivity. Qed.

(** The sanitized form of an accepted email. *)
Lemma sanitized_email (U : unicode_tables) (s : str) :
  EmailPattern s -> escape (lower U s) = map ascii_tolower s.
Proof.
  intros H.
  rewrite lower_ascii.
  - apply escape_plain.
    apply EmailPattern_lower, EmailPattern_chars in H.
    revert H. apply forallb_weaken, email_char_plain.
  - apply EmailPattern_chars in H.
    revert H. apply forallb_weaken, email_char_ascii.
Qed.

(** C5. Whenever the validator returns, the email error is reported exactly
    when the trimmed email does not have the shape of the pattern;
    acceptance does not depend on letter case; and when the body is valid
    the sanitized email is the trimmed email with every upper-case letter
    replaced by its lower-case one, so it holds no upper-case letter. *)
Theorem C5_email_rule_and_lowercase
  (U : unicode_tables) (data : dict) (errs : list str) (e : str) :
  validate_contact_form U data = Ok errs ->
  field data K_email = JString e ->
  (In E_email errs <-> ~ EmailPattern (strip e))
  /\ (EmailPattern (strip e) <-> EmailPattern (map ascii_tolower (strip e)))
  /\ (errs = [] ->
      forall ts, exists sub,
        sanitize U data ts = Ok sub
        /\ email sub = map ascii_tolower (strip e)
        /\ forallb (fun c => negb (ascii_upper c)) (email sub) = true).
Proof.
  intros Hv He. split; [|split].
  - apply validate_ok_inv in Hv.
    destruct Hv as (n & e' & p & m & Hn & He' & Hp & Hm & ->).
    rewrite He in He'. inversion He'; subst e'. clear He'.
    rewrite <- re_match_strip. split.
    + intros H. in_four H. congruence.
    + intros H. rewrite !in_app_iff. right. left. unfold email_errors.
      destruct (re_match email_regex (strip e)); [congruence | left; reflexivity].
  - apply EmailPattern_lower.
  - intros -> ts. apply valid_fields in Hv.
    destruct Hv as (n & e' & p & m & Hn & He' & Hp & Hm & _ & Pe & _).
    assert (e' = e).
    { unfold field, dict_get in He. rewrite He' in He. congruence. }
    subst e'.
    eexists. split; [apply (sanitize_present U data ts Hn He' Hp Hm)|].
    cbn [email]. rewrite (sanitized_email U Pe). split; [reflexivity|].
    rewrite forallb_forall. intros c Hc. apply in_map_iff in Hc.
    destruct Hc as (x & <- & _). apply tolower_not_upper.
Qed.

(* ------------------------------------------------------------------ *)
(** ** The handler, case by case *)
(* ------------------------------------------------------------------ *)

Section HandlerCases.

Variable U : unicode_tables.
Variable E : environment.

Lemma handle_object (data : dict) :
  handle U E (Some (JObject data))
  = let p := Printed (Some (JObject data)) in
    match validate_contact_form U data with
    | Raise e => (Ok R_internal_error, [p; LoggedUnhandled e])
    | Ok (x :: l) => (Ok (R_invalid (x :: l)), [p])
    | Ok [] =>
        match sanitize U data (clock E) with
        | Raise e => (Ok R_internal_error, [p; LoggedUnhandled e])
        | Ok sub => dispatch_outcome E p sub
        end
    end.
Proof.
  unfold handle, contact, try_except, io_bind, io_lift, emit, io_ret.
  cbn [app].
  destruct (validate_contact_form U data) as [[|x l]|e]; try reflexivity.
  destruct (sanitize U data (clock E)) as [sub|e]; [|reflexivity].
  unfold dispatch_outcome, new_message, send.
  destruct (Message_init E (admin_msg_args (ADMIN_EMAIL E) sub));
    [reflexivity|].
  destruct (Message_init E (user_msg_args sub)); [reflexivity|].
  cbn [attempts app].
  destruct (mail_send E [] (admin_msg_args (ADMIN_EMAIL E) sub));
    [reflexivity|].
  cbn [attempts app].
  destruct (mail_send E [admin_msg_args (ADMIN_EMAIL E) sub]
              (user_msg_args sub)); reflexivity.
Qed.

Lemma handle_valid (data : dict) (sub : SanitizedSubmission) :
  validate_contact_form U data = Ok [] ->
  sanitize U data (clock E) = Ok sub ->
  handle U E (Some (JObject data))
  = dispatch_outcome E (Printed (Some (JObject data))) sub.
Proof. intros Hv Hs. rewrite handle_object, Hv, Hs. reflexivity. Qed.

(** C1. For a valid body whose two messages are built: the admin message
    is sent first and the submitter confirmation second, the second only
    when the first send did not raise; if the first send raises, the admin
    message is the only send attempted and the response is 503 with success
    false and the text Email service temporarily unavailable. *)
Theorem C1_admin_first_and_stop_on_failure
  (data : dict) (sub : SanitizedSubmission) :
  validate_contact_form U data = Ok [] ->
  sanitize U data (clock E) = Ok sub ->
  Message_init E (admin_msg_args (ADMIN_EMAIL E) sub) = None ->
  Message_init E (user_msg_args sub) = None ->
  attempts (snd (handle U E (Some (JObject data))))
  = match mail_send E [] (admin_msg_args (ADMIN_EMAIL E) sub) with
    | Some _ => [admin_msg_args (ADMIN_EMAIL E) sub]
    | None => [admin_msg_args (ADMIN_EMAIL E) sub; user_msg_args sub]
    end
  /\ (forall e,
        mail_send E [] (admin_msg_args (ADMIN_EMAIL E) sub) = Some e ->
        handle U E (Some (JObject data))
        = (Ok R_mail_unavailable,
           [Printed (Some (JObject data));
            SendAttempt (admin_msg_args (ADMIN_EMAIL E) sub);
            LoggedMailError e]))
  /\ status R_mail_unavailable = 503
  /\ content R_mail_unavailable
     = Notice false (lit "Email service temporarily unavailable.").
Proof.
  intros Hv Hs Ha Hu. rewrite (handle_valid data Hv Hs).
  unfold dispatch_outcome. rewrite Ha, Hu.
  split; [|split; [|split; reflexivity]].
  - destruct (mail_send E [] (admin_msg_args (ADMIN_EMAIL E) sub));
      [reflexivity|].
    destruct (mail_send E [admin_msg_args (ADMIN_EMAIL E) sub]
                (user_msg_args sub)); reflexivity.
  - intros e He. rewrite He. reflexivity.
Qed.

(** C3, amended. For a valid body the response is the 500 one, with the
    text Internal server error, exactly when the construction of one of the
    two messages raises; it is the 503 one exactly when both are built and
    one of the two sends raises, whether the exception is a mail-transport
    failure or not. *)
Theorem C3_build_failure_500_send_failure_503
  (data : dict) (sub : SanitizedSubmission) :
  validate_contact_form U data = Ok [] ->
  sanitize U data (clock E) = Ok sub ->
  (fst (handle U E (Some (JObject data))) = Ok R_internal_error <->
   Message_init E (admin_msg_args (ADMIN_EMAIL E) sub) <> None
   \/ Message_init E (user_msg_args sub) <> None)
  /\ (fst (handle U E (Some (JObject data))) = Ok R_mail_unavailable <->
      Message_init E (admin_msg_args (ADMIN_EMAIL E) sub) = None
      /\ Message_init E (user_msg_args sub) = None
      /\ (mail_send E [] (admin_msg_args (ADMIN_EMAIL E) sub) <> None
          \/ mail_send E [admin_msg_args (ADMIN_EMAIL E) sub]
               (user_msg_args sub) <> None))
  /\ status R_internal_error = 500
  /\ content R_internal_error = Notice false (lit "Internal server error.")
  /\ status R_mail_unavailable = 503.
Proof.
  intros Hv Hs. rewrite (handle_valid data Hv Hs). unfold dispatch_outcome.
  destruct (Message_init E (admin_msg_args (ADMIN_EMAIL E) sub));
    destruct (Message_init E (user_msg_args sub));
    destruct (mail_send E [] (admin_msg_args (ADMIN_EMAIL E) sub));
    destruct (mail_send E [admin_msg_args (ADMIN_EMAIL E) sub]
                (user_msg_args sub));
    cbn [fst];
    (split; [|split; [|repeat split; reflexivity]]);
    (split; intros X;
     try reflexivity;
     try (exfalso; vm_compute in X; discriminate X);
     try (intuition congruence)).
Qed.

Lemma method_strip_raises (v : json) :
  (forall s, v <> JString s) -> method_strip v = Raise AttributeError.
Proof.
  intros H. destruct v as [|b|x|s|l|d]; try reflexivity.
  exfalso. apply (H s). reflexivity.
Qed.

Lemma method_strip_cases (v : json) :
  (exists s, v = JString s) \/ method_strip v = Raise AttributeError.
Proof. destruct v; eauto. Qed.

Lemma validate_raises (data : dict) (k : str) :
  In k [K_name; K_email; K_phone; K_message] ->
  (forall s, field data k <> JString s) ->
  validate_contact_form U data = Raise AttributeError.
Proof.
  intros Hk Hv. unfold validate_contact_form. fold (field data K_name).
  fold (field data K_email). fold (field data K_phone).
  fold (field data K_message).
  destruct (method_strip_cases (field data K_name)) as [[n Hn]|Hn];
    [|rewrite Hn; reflexivity].
  destruct (method_strip_cases (field data K_email)) as [[e He]|He];
    [|rewrite Hn, He; reflexivity].
  destruct (method_strip_cases (field data K_phone)) as [[p Hp]|Hp];
    [|rewrite Hn, He, Hp; reflexivity].
  destruct (method_strip_cases (field data K_message)) as [[m Hm]|Hm];
    [|rewrite Hn, He, Hp, Hm; reflexivity].
  exfalso. simpl in Hk.
  destruct Hk as [<-|[<-|[<-|[<-|[]]]]]; eapply Hv; eassumption.
Qed.

(** C10. If one of the four keys is present with a value that is not a
    string, the validator reads that value, not the empty-string default
    (which is for absent keys), validation raises, and the request is
    answered with status 500 and the text Internal server error, not with
    a 400 validation error; nothing is sent. *)
Theorem C10_non_string_field_is_internal_error
  (data : dict) (k : str) (v : json) :
  In k [K_name; K_email; K_phone; K_message] ->
  lookup data k = Some v ->
  (forall s, v <> JString s) ->
  field data k = v
  /\ validate_contact_form U data = Raise AttributeError
  /\ handle U E (Some (JObject data))
     = (Ok R_internal_error,
        [Printed (Some (JObject data)); LoggedUnhandled AttributeError])
  /\ status R_internal_error = 500
  /\ content R_internal_error = Notice false (lit "Internal server error.").
Proof.
  intros Hk Hl Hv.
  assert (Hr : validate_contact_form U data = Raise AttributeError).
  { eapply validate_raises; [exact Hk|].
    unfold field, dict_get. rewrite Hl. exact Hv. }
  split; [unfold field, dict_get; rewrite Hl; reflexivity|].
  split; [exact Hr|]. split; [|split; reflexivity].
  rewrite handle_object, Hr. reflexivity.
Qed.

End HandlerCases.

(* ------------------------------------------------------------------ *)
(** ** The properties at concrete requests *)
(* ------------------------------------------------------------------ *)

Lemma C1_witness :
  validate_contact_form ascii_only body_A = Ok []
  /\ sanitize ascii_only body_A (clock env_first_send_fails) = Ok sub_A
  /\ Message_init env_first_send_fails
       (admin_msg_args (ADMIN_EMAIL env_first_send_fails) sub_A) = None
  /\ Message_init env_first_send_fails (user_msg_args sub_A) = None
  /\ (attempts
        (snd (handle ascii_only env_first_send_fails (Some (JObject body_A))))
      = match mail_send env_first_send_fails []
                (admin_msg_args (ADMIN_EMAIL env_first_send_fails) sub_A) with
        | Some _ => [admin_msg_args (ADMIN_EMAIL env_first_send_fails) sub_A]
        | None => [admin_msg_args (ADMIN_EMAIL env_first_send_fails) sub_A;
                   user_msg_args sub_A]
        end
      /\ (forall e,
            mail_send env_first_send_fails []
              (admin_msg_args (ADMIN_EMAIL env_first_send_fails) sub_A)
            = Some e ->
            handle ascii_only env_first_send_fails (Some (JObject body_A))
            = (Ok R_mail_unavailable,
               [Printed (Some (JObject body_A));
                SendAttempt
                  (admin_msg_args (ADMIN_EMAIL env_first_send_fails) sub_A);
                LoggedMailError e]))
      /\ status R_mail_unavailable = 503
      /\ content R_mail_unavailable
         = Notice false (lit "Email service temporarily unavailable.")).
Proof.
  assert (Hv : validate_contact_form ascii_only body_A = Ok [])
    by (vm_compute; reflexivity).
  assert (Hs : sanitize ascii_only body_A (clock env_first_send_fails)
               = Ok sub_A) by (vm_compute; reflexivity).
  split; [exact Hv|]. split; [exact Hs|].
  split; [reflexivity|]. split; [reflexivity|].
  exact (@C1_admin_first_and_stop_on_failure ascii_only env_first_send_fails
           body_A sub_A Hv Hs eq_refl eq_refl).
Defined.

(** The failing first send of [env_first_send_fails], evaluated: one
    attempt, the admin message, and the 503 response. *)
Example scenario_D :
  handle ascii_only env_first_send_fails (Some (JObject body_A))
  = (Ok R_mail_unavailable,
     [Printed (Some (JObject body_A));
      SendAttempt (admin_msg_args (ADMIN_EMAIL env_first_send_fails) sub_A);
      LoggedMailError MailTransportError]).
Proof. vm_compute. reflexivity. Qed.

Lemma C2_witness :
  validate_contact_form ascii_only long_when_escaped = Ok []
  /\ exists n p m sub,
      field long_when_escaped K_name = JString n
      /\ field long_when_escaped K_phone = JString p
      /\ field long_when_escaped K_message = JString m
      /\ sanitize ascii_only long_when_escaped stamp = Ok sub
      /\ name sub = escape (firstn 100 (strip n))
      /\ phone sub = escape (firstn 20 (strip p))
      /\ message_text sub = escape (firstn 1000 (strip m))
      /\ length (firstn 100 (strip n)) <= 100
      /\ length (firstn 20 (strip p)) <= 20
      /\ length (firstn 1000 (strip m)) <= 1000
      /\ length (name sub) <= 5 * 100
      /\ length (phone sub) <= 5 * 20
      /\ length (message_text sub) <= 5 * 1000.
Proof.
  assert (Hv : validate_contact_form ascii_only long_when_escaped = Ok [])
    by (vm_compute; reflexivity).
  split; [exact Hv|].
  exact (@C2_sanitized_lengths ascii_only long_when_escaped stamp Hv).
Defined.

(** C3, as stated, fails: the first send raises an exception that is not a
    mail-transport failure, and the response is the 503 one, not the 500
    one. *)
Lemma C3_non_transport_send_failure_is_503 :
  validate_contact_form ascii_only body_A = Ok []
  /\ is_transport (OtherError "ValueError") = false
  /\ mail_send env_send_value_error []
       (admin_msg_args (ADMIN_EMAIL env_send_value_error) sub_A)
     = Some (OtherError "ValueError")
  /\ fst (handle ascii_only env_send_value_error (Some (JObject body_A)))
     = Ok R_mail_unavailable
  /\ status R_mail_unavailable = 503
  /\ fst (handle ascii_only env_send_value_error (Some (JObject body_A)))
     <> Ok R_internal_error.
Proof.
  assert (H : fst (handle ascii_only env_send_value_error
                     (Some (JObject body_A))) = Ok R_mail_unavailable)
    by (vm_compute; reflexivity).
  repeat split; try reflexivity; try exact H.
  rewrite H. intros X. vm_compute in X. discriminate X.
Qed.

Lemma C3_witness :
  validate_contact_form ascii_only body_A = Ok []
  /\ sanitize ascii_only body_A (clock env_build_fails) = Ok sub_A
  /\ ((fst (handle ascii_only env_build_fails (Some (JObject body_A)))
       = Ok R_internal_error <->
       Message_init env_build_fails
         (admin_msg_args (ADMIN_EMAIL env_build_fails) sub_A) <> None
       \/ Message_init env_build_fails (user_msg_args sub_A) <> None)
      /\ (fst (handle ascii_only env_build_fails (Some (JObject body_A)))
          = Ok R_mail_unavailable <->
          Message_init env_build_fails
            (admin_msg_args (ADMIN_EMAIL env_build_fails) sub_A) = None
          /\ Message_init env_build_fails (user_msg_args sub_A) = None
          /\ (mail_send env_build_fails []
                (admin_msg_args (ADMIN_EMAIL env_build_fails) sub_A) <> None
              \/ mail_send env_build_fails
                   [admin_msg_args (ADMIN_EMAIL env_build_fails) sub_A]
                   (user_msg_args sub_A) <> None))
      /\ status R_internal_error = 500
      /\ content R_internal_error = Notice false (lit "Internal server error.")
      /\ status R_mail_unavailable = 503).
Proof.
  assert (Hv : validate_contact_form ascii_only body_A = Ok [])
    by (vm_compute; reflexivity).
  assert (Hs : sanitize ascii_only body_A (clock env_build_fails) = Ok sub_A)
    by (vm_compute; reflexivity).
  split; [exact Hv|]. split; [exact Hs|].
  exact (@C3_build_failure_500_send_failure_503 ascii_only env_build_fails
           body_A sub_A Hv Hs).
Defined.

(** The same holds whatever the Unicode tables are: the bodies are pure
    ASCII. *)
Example long_when_escaped_any_tables (U : unicode_tables) :
  validate_contact_form U long_when_escaped = Ok []
  /\ exists sub,
      sanitize U long_when_escaped stamp = Ok sub
      /\ length (name sub) = 120
      /\ length (phone sub) = 60
      /\ length (message_text sub) = 5 * 300.
Proof.
  split; [vm_compute; reflexivity|].
  eexists. split; [vm_compute; reflexivity|].
  repeat split; vm_compute; reflexivity.
Qed.

Example send_value_error_any_tables (U : unicode_tables) :
  fst (handle U env_send_value_error (Some (JObject body_A)))
  = Ok R_mail_unavailable.
Proof. vm_compute. reflexivity. Qed.

(** A constructor that raises, evaluated: nothing is sent and the answer
    is the 500 one. *)
Example build_failure_is_500 :
  handle ascii_only env_build_fails (Some (JObject body_A))
  = (Ok R_internal_error,
     [Printed (Some (JObject body_A)); LoggedUnhandled (OtherError "TypeError")]).
Proof. vm_compute. reflexivity. Qed.

Lemma C4_witness :
  validate_contact_form ascii_only body_B
  = Ok [E_name_short; E_email; E_message_short]
  /\ field body_B K_name = JString (lit "J")
  /\ field body_B K_message = JString (lit "short")
  /\ ((In E_name_short [E_name_short; E_email; E_message_short] <->
       length (strip (lit "J")) < 2)
      /\ (In E_name_long [E_name_short; E_email; E_message_short] <->
          100 < length (strip (lit "J")))
      /\ (In E_message_short [E_name_short; E_email; E_message_short] <->
          length (strip (lit "short")) < 10)
      /\ (In E_message_long [E_name_short; E_email; E_message_short] <->
          1000 < length (strip (lit "short")))
      /\ E_name_short <> E_name_long
      /\ E_message_short <> E_message_long).
Proof.
  assert (Hv : validate_contact_form ascii_only body_B
               = Ok [E_name_short; E_email; E_message_short])
    by (vm_compute; reflexivity).
  split; [exact Hv|]. split; [reflexivity|]. split; [reflexivity|].
  exact (@C4_name_message_length_rules ascii_only body_B _ (lit "J")
           (lit "short") Hv eq_refl eq_refl).
Defined.

Lemma C5_witness :
  validate_contact_form ascii_only body_mixed_case = Ok []
  /\ field body_mixed_case K_email = JString (lit "  Jo.Doe@Example.COM ")
  /\ ((In E_email [] <->
       ~ EmailPattern (strip (lit "  Jo.Doe@Example.COM ")))
      /\ (EmailPattern (strip (lit "  Jo.Doe@Example.COM ")) <->
          EmailPattern
            (map ascii_tolower (strip (lit "  Jo.Doe@Example.COM "))))
      /\ (@nil str = [] ->
          forall ts, exists sub,
            sanitize ascii_only body_mixed_case ts = Ok sub
            /\ email sub
               = map ascii_tolower (strip (lit "  Jo.Doe@Example.COM "))
            /\ forallb (fun c => negb (ascii_upper c)) (email sub) = true)).
Proof.
  assert (Hv : validate_contact_form ascii_only body_mixed_case = Ok [])
    by (vm_compute; reflexivity).
  split; [exact Hv|]. split; [reflexivity|].
  exact (@C5_email_rule_and_lowercase ascii_only body_mixed_case []
           (lit "  Jo.Doe@Example.COM ") Hv eq_refl).
Defined.

(** The sanitized email of [body_mixed_case], evaluated. *)
Example mixed_case_email_is_lowered :
  exists sub,
    sanitize ascii_only body_mixed_case stamp = Ok sub
    /\ email sub = lit "jo.doe@example.com".
Proof. eexists. split; vm_compute; reflexivity. Qed.

Lemma C6_witness :
  validate_contact_form ascii_only body_short_phone = Ok [E_phone]
  /\ field body_short_phone K_phone = JString (lit "555-1234")
  /\ ((lookup body_short_phone K_phone = None \/ strip (lit "555-1234") = [] ->
       ~ In E_phone [E_phone])
      /\ (strip (lit "555-1234") <> [] ->
          (In E_phone [E_phone] <->
           digit_count ascii_only (strip (lit "555-1234")) < 10
           \/ 15 < digit_count ascii_only (strip (lit "555-1234"))))).
Proof.
  assert (Hv : validate_contact_form ascii_only body_short_phone = Ok [E_phone])
    by (vm_compute; reflexivity).
  split; [exact Hv|]. split; [reflexivity|].
  exact (@C6_phone_rule ascii_only body_short_phone [E_phone]
           (lit "555-1234") Hv eq_refl).
Defined.

(** A body without phone has no phone error even when every other field
    is wrong. *)
Example absent_phone_no_error :
  lookup body_B K_phone = None
  /\ validate_contact_form ascii_only body_B
     = Ok [E_name_short; E_email; E_message_short].
Proof. split; vm_compute; reflexivity. Qed.

Lemma C7_witness :
  (forall k, In k [K_name; K_email; K_phone; K_message] ->
             absent_or_string body_B k)
  /\ validate_contact_form ascii_only body_B
     = Ok (name_errors (strip (text body_B K_name))
           ++ email_errors (strip (text body_B K_email))
           ++ phone_errors ascii_only (strip (text body_B K_phone))
           ++ message_errors (strip (text body_B K_message))).
Proof.
  assert (H : forall k, In k [K_name; K_email; K_phone; K_message] ->
                        absent_or_string body_B k).
  { simpl. intros k [<-|[<-|[<-|[<-|[]]]]].
    - right. eexists. reflexivity.
    - right. eexists. reflexivity.
    - left. reflexivity.
    - right. eexists. reflexivity. }
  split; [exact H|].
  exact (@C7_all_rules_in_order ascii_only body_B H).
Defined.

(** No key at all: three errors, in the order name, email, message. *)
Example empty_object_errors :
  validate_contact_form ascii_only []
  = Ok [E_name_short; E_email; E_message_short].
Proof. vm_compute. reflexivity. Qed.

Lemma C9_witness :
  validate_contact_form ascii_only body_A = Ok []
  /\ ((exists n e m,
          lookup body_A K_name = Some (JString n)
          /\ lookup body_A K_email = Some (JString e)
          /\ lookup body_A K_message = Some (JString m))
      /\ (forall ts, exists sub,
            sanitize ascii_only body_A ts = Ok sub
            /\ (lookup body_A K_phone = None -> phone sub = []))).
Proof.
  assert (Hv : validate_contact_form ascii_only body_A = Ok [])
    by (vm_compute; reflexivity).
  split; [exact Hv|].
  exact (@C9_valid_body_has_required_keys ascii_only body_A Hv).
Defined.

Lemma C10_witness :
  In K_name [K_name; K_email; K_phone; K_message]
  /\ lookup body_numeric_name K_name = Some (JNumber (lit "5"))
  /\ (forall s, JNumber (lit "5") <> JString s)
  /\ (field body_numeric_name K_name = JNumber (lit "5")
      /\ validate_contact_form ascii_only body_numeric_name
         = Raise AttributeError
      /\ handle ascii_only env_ok (Some (JObject body_numeric_name))
         = (Ok R_internal_error,
            [Printed (Some (JObject body_numeric_name));
             LoggedUnhandled AttributeError])
      /\ status R_internal_error = 500
      /\ content R_internal_error
         = Notice false (lit "Internal server error.")).
Proof.
  assert (Hk : In K_name [K_name; K_email; K_phone; K_message])
    by (left; reflexivity).
  assert (Hv : forall s, JNumber (lit "5") <> JString s)
    by (intros s; discriminate).
  split; [exact Hk|]. split; [reflexivity|]. split; [exact Hv|].
  exact (@C10_non_string_field_is_internal_error ascii_only env_ok
           body_numeric_name K_name (JNumber (lit "5")) Hk eq_refl Hv).
Defined.

(** A key bound to null is not an absent key. *)
Example null_phone_is_internal_error :
  fst (handle ascii_only env_ok
         (Some (JObject ((K_phone, JNull) :: body_A))))
  = Ok R_internal_error
  /\ fst (handle ascii_only env_ok (Some (JObject body_A))) = Ok R_sent.
Proof. split; vm_compute; reflexivity. Qed.

(** Scenarios B and A of the specification, through the validator. *)

Example scenario_B_errors :
  validate_contact_form ascii_only (mk_dict "J" "bad-email" "short")
  = Ok [E_name_short; E_email; E_message_short].
Proof. vm_compute. reflexivity. Qed.

Example scenario_A_valid :
  validate_contact_form ascii_only
    (mk_dict "Jo" "jo@example.com" "Hello there, testing") = Ok [].
Proof. vm_compute. reflexivity. Qed.

(* ================================================================== *)
(** * Further properties of the validator *)
(* ================================================================== *)

Lemma field_string_inv (data : dict) (k s : str) :
  field data k = JString s -> absent_or_string data k.
Proof.
  unfold field, dict_get, absent_or_string.
  destruct (lookup data k) as [v|]; [|auto].
  intros ->. right. eauto.
Qed.

Lemma validate_cases (U : unicode_tables) (data : dict) :
  (exists n e p m,
      field data K_name = JString n /\ field data K_email = JString e
      /\ field data K_phone = JString p /\ field data K_message = JString m)
  \/ validate_contact_form U data = Raise AttributeError.
Proof.
  destruct (method_strip_cases (field data K_name)) as [[n Hn]|Hn];
    [|right; unfold validate_contact_form; fold (field data K_name);
      rewrite Hn; reflexivity].
  destruct (method_strip_cases (field data K_email)) as [[e He]|He];
    [|right; eapply (@validate_raises U data K_email);
      [simpl; auto | intros s X; rewrite X in He; discriminate He]].
  destruct (method_strip_cases (field data K_phone)) as [[p Hp]|Hp];
    [|right; eapply (@validate_raises U data K_phone);
      [simpl; auto | intros s X; rewrite X in Hp; discriminate Hp]].
  destruct (method_strip_cases (field data K_message)) as [[m Hm]|Hm];
    [|right; eapply (@validate_raises U data K_message);
      [simpl; auto 6 | intros s X; rewrite X in Hm; discriminate Hm]].
  left. exists n, e, p, m. auto.
Qed.

(** X1. The validator returns an error list exactly when each of the four
    keys is absent or bound to a string; otherwise it raises, and what it
    raises is always the attribute error of the failed strip, never a
    missing-key error. *)
Theorem X1_validator_returns_iff_fields_are_strings
  (U : unicode_tables) (data : dict) :
  ((exists errs, validate_contact_form U data = Ok errs) <->
   (forall k, In k form_keys -> absent_or_string data k))
  /\ (forall e, validate_contact_form U data = Raise e -> e = AttributeError).
Proof.
  split; [split|].
  - intros [errs H]. apply validate_ok_inv in H.
    destruct H as (n & e & p & m & Hn & He & Hp & Hm & _).
    intros k Hk. simpl in Hk.
    destruct Hk as [<-|[<-|[<-|[<-|[]]]]]; eapply field_string_inv; eauto.
  - intros H. eexists.
    apply validate_strings; apply field_text, H; simpl; auto.
  - intros e He. destruct (validate_cases U data) as [H|H].
    + destruct H as (n & e' & p & m & Hn & He' & Hp & Hm).
      rewrite (validate_strings U data Hn He' Hp Hm) in He. discriminate He.
    + rewrite H in He. inversion He. reflexivity.
Qed.



Lemma email_errors_cases (e : str) :
  email_errors e = [] \/ email_errors e = [E_email].
Proof. unfold email_errors. destruct (re_match email_regex e); auto. Qed.





(** Whitespace around a string does not survive [strip]. *)

Lemma dropwhile_all (p : char -> bool) (a t : str) :
  forallb p a = true -> dropwhile p (a ++ t) = dropwhile p t.
Proof.
  induction a as [|c a IH]; simpl; [reflexivity|].
  intros H. apply andb_true_iff in H. destruct H as [Hc Ha].
  rewrite Hc. auto.
Qed.

Lemma dropwhile_app_tail (p : char -> bool) (s b : str) :
  forallb p b = true ->
  exists b', forallb p b' = true /\ dropwhile p (s ++ b) = dropwhile p s ++ b'.
Proof.
  intros Hb. induction s as [|c s IH]; simpl.
  - exists []. split; [reflexivity|].
    rewrite <- (app_nil_r b). rewrite dropwhile_all by assumption. reflexivity.
  - destruct (p c); [exact IH|].
    exists b. split; [assumption | reflexivity].
Qed.

Lemma forallb_rev (p : char -> bool) (s : str) :
  forallb p s = true -> forallb p (rev s) = true.
Proof.
  rewrite !forallb_forall. intros H x Hx. apply H. apply in_rev. exact Hx.
Qed.

Lemma rstrip_pad (t b : str) :
  forallb isspace b = true -> rstrip (t ++ b) = rstrip t.
Proof.
  intros Hb. unfold rstrip. rewrite rev_app_distr.
  rewrite dropwhile_all by (apply forallb_rev; assumption). reflexivity.
Qed.

Lemma strip_pad (a s b : str) :
  forallb isspace a = true -> forallb isspace b = true ->
  strip (a ++ s ++ b) = strip s.
Proof.
  intros Ha Hb. unfold strip, lstrip.
  rewrite dropwhile_all by assumption.
  destruct (@dropwhile_app_tail isspace s b Hb) as (b' & Hb' & ->).
  apply rstrip_pad. exact Hb'.
Qed.

(** The dictionary, one binding added in front. *)

Lemma str_eqb_refl (k : str) : str_eqb k k = true.
Proof. apply str_eqb_eq. reflexivity. Qed.

Lemma lookup_cons_same (d : dict) (k : str) (v : json) :
  lookup ((k, v) :: d) k = Some v.
Proof. simpl. rewrite str_eqb_refl. reflexivity. Qed.

Lemma lookup_cons_other (d : dict) (k k' : str) (v : json) :
  k <> k' -> lookup ((k, v) :: d) k' = lookup d k'.
Proof.
  intros H. simpl. destruct (str_eqb k k') eqn:Hk; [|reflexivity].
  apply str_eqb_eq in Hk. contradiction.
Qed.

(** The validator sees a body only through the four stripped fields. *)
Lemma validate_ext (U : unicode_tables) (data data' : dict) :
  (forall k, In k form_keys ->
             method_strip (field data k) = method_strip (field data' k)) ->
  validate_contact_form U data = validate_contact_form U data'.
Proof.
  intros H. unfold validate_contact_form.
  fold (field data K_name) (field data K_email) (field data K_phone)
       (field data K_message).
  fold (field data' K_name) (field data' K_email) (field data' K_phone)
       (field data' K_message).
  rewrite (H K_name), (H K_email), (H K_phone), (H K_message);
    [reflexivity | | | |]; unfold form_keys; simpl; auto 6.
Qed.

(** X3. Blanks, tabs, line breaks and the other characters [strip] removes,
    put before and after the value of any of the four fields, change
    nothing in what the validator returns; in particular a field made of
    such characters only is validated like an absent one. *)
Theorem X3_surrounding_whitespace_ignored
  (U : unicode_tables) (data : dict) (k s a b : str) :
  In k form_keys ->
  field data k = JString s ->
  forallb isspace a = true ->
  forallb isspace b = true ->
  validate_contact_form U ((k, JString (a ++ s ++ b)) :: data)
  = validate_contact_form U data.
Proof.
  intros Hk Hs Ha Hb. apply validate_ext. intros k' _.
  destruct (str_eqb k k') eqn:E.
  - apply str_eqb_eq in E. subst k'. rewrite Hs.
    unfold field, dict_get. rewrite lookup_cons_same.
    cbn [method_strip]. rewrite strip_pad by assumption. reflexivity.
  - unfold field, dict_get. rewrite lookup_cons_other; [reflexivity|].
    intros X. subst k'. rewrite str_eqb_refl in E. discriminate E.
Qed.

Lemma X3_witness :
  In K_name form_keys
  /\ field body_A K_name = JString (lit "Jo")
  /\ forallb isspace (lit "  ") = true
  /\ forallb isspace [9%N; 32%N] = true
  /\ validate_contact_form ascii_only
       ((K_name, JString (lit "  " ++ lit "Jo" ++ [9%N; 32%N])) :: body_A)
     = validate_contact_form ascii_only body_A.
Proof.
  assert (Hk : In K_name form_keys) by (left; reflexivity).
  split; [exact Hk|]. split; [reflexivity|].
  split; [reflexivity|]. split; [reflexivity|].
  exact (@X3_surrounding_whitespace_ignored ascii_only body_A K_name
           (lit "Jo") (lit "  ") [9%N; 32%N] Hk eq_refl eq_refl eq_refl).
Defined.

Lemma not_form_key (k : str) :
  ~ In k form_keys ->
  str_eqb k K_name = false /\ str_eqb k K_email = false
  /\ str_eqb k K_phone = false /\ str_eqb k K_message = false.
Proof.
  intros H. unfold form_keys in H. simpl in H.
  repeat split;
    match goal with
    | |- str_eqb k ?x = false =>
        destruct (str_eqb k x) eqn:E; [|reflexivity];
        apply str_eqb_eq in E; subst k; exfalso; apply H; auto 6
    end.
Qed.

Lemma dispatch_outcome_print (E : environment) (d d' : option json)
  (sub : SanitizedSubmission) :
  fst (dispatch_outcome E (Printed d) sub)
  = fst (dispatch_outcome E (Printed d') sub)
  /\ attempts (snd (dispatch_outcome E (Printed d) sub))
     = attempts (snd (dispatch_outcome E (Printed d') sub)).
Proof.
  unfold dispatch_outcome.
  destruct (Message_init E (admin_msg_args (ADMIN_EMAIL E) sub));
    [|destruct (Message_init E (user_msg_args sub));
      [|destruct (mail_send E [] (admin_msg_args (ADMIN_EMAIL E) sub));
        [|destruct (mail_send E [admin_msg_args (ADMIN_EMAIL E) sub]
                      (user_msg_args sub))]]];
    split; reflexivity.
Qed.

(** X4. A key other than name, email, phone and message is read neither by
    the validator nor by the sanitizer: adding one to the body changes
    neither their results, nor the response, nor the messages sent. *)
Theorem X4_other_keys_are_ignored
  (U : unicode_tables) (E : environment) (data : dict) (k : str) (v : json) :
  ~ In k form_keys ->
  validate_contact_form U ((k, v) :: data) = validate_contact_form U data
  /\ (forall ts, sanitize U ((k, v) :: data) ts = sanitize U data ts)
  /\ fst (handle U E (Some (JObject ((k, v) :: data))))
     = fst (handle U E (Some (JObject data)))
  /\ attempts (snd (handle U E (Some (JObject ((k, v) :: data)))))
     = attempts (snd (handle U E (Some (JObject data)))).
Proof.
  intros Hk. destruct (not_form_key Hk) as (H1 & H2 & H3 & H4).
  assert (Hv : validate_contact_form U ((k, v) :: data)
               = validate_contact_form U data).
  { unfold validate_contact_form, dict_get. cbn [lookup].
    rewrite H1, H2, H3, H4. reflexivity. }
  assert (Hs : forall ts, sanitize U ((k, v) :: data) ts = sanitize U data ts).
  { intros ts. unfold sanitize, dict_index, dict_get. cbn [lookup].
    rewrite H1, H2, H3, H4. reflexivity. }
  split; [exact Hv|]. split; [exact Hs|].
  rewrite !handle_object, Hv, Hs. cbv zeta.
  destruct (validate_contact_form U data) as [[|x l]|e];
    [|split; reflexivity|split; reflexivity].
  destruct (sanitize U data (clock E)) as [sub|e]; [|split; reflexivity].
  apply dispatch_outcome_print.
Qed.

Lemma X4_witness :
  ~ In (lit "utm") form_keys
  /\ (validate_contact_form ascii_only ((lit "utm", JBool true) :: body_A)
      = validate_contact_form ascii_only body_A
      /\ (forall ts,
            sanitize ascii_only ((lit "utm", JBool true) :: body_A) ts
            = sanitize ascii_only body_A ts)
      /\ fst (handle ascii_only env_ok
                (Some (JObject ((lit "utm", JBool true) :: body_A))))
         = fst (handle ascii_only env_ok (Some (JObject body_A)))
      /\ attempts
           (snd (handle ascii_only env_ok
                   (Some (JObject ((lit "utm", JBool true) :: body_A)))))
         = attempts (snd (handle ascii_only env_ok (Some (JObject body_A))))).
Proof.
  assert (Hk : ~ In (lit "utm") form_keys).
  { unfold form_keys. simpl. intros [X|[X|[X|[X|[]]]]];
      vm_compute in X; discriminate X. }
  split; [exact Hk|].
  exact (@X4_other_keys_are_ignored ascii_only env_ok body_A (lit "utm")
           (JBool true) Hk).
Defined.

(** What an accepted email looks like. *)

Lemma count_app (c : char) (a b : str) :
  count c (a ++ b) = count c a + count c b.
Proof. unfold count. rewrite filter_app, length_app. reflexivity. Qed.

Lemma count_zero (c : char) (s : str) :
  (forall x, In x s -> x <> c) -> count c s = 0.
Proof.
  unfold count. induction s as [|x s IH]; simpl; intros H; [reflexivity|].
  destruct (N.eqb_spec c x) as [->|_].
  - exfalso. apply (H x); auto.
  - apply IH. intros y Hy. apply H. auto.
Qed.

Lemma count_zero_class (p : char -> bool) (c : char) (s : str) :
  (forall x, p x = true -> x <> c) -> forallb p s = true -> count c s = 0.
Proof.
  intros Hp Hs. apply count_zero. intros x Hx.
  rewrite forallb_forall in Hs. auto.
Qed.

Lemma isspace_iff (c : char) :
  isspace c = true <->
  (9 <= c <= 13 \/ 28 <= c <= 32 \/ c = 133 \/ c = 160 \/ c = 5760
   \/ 8192 <= c <= 8202 \/ c = 8232 \/ c = 8233 \/ c = 8239 \/ c = 8287
   \/ c = 12288)%N.
Proof.
  unfold isspace. rewrite !orb_true_iff, !between_iff, !N.eqb_eq. tauto.
Qed.

Lemma email_errors_nil (x : str) :
  email_errors x = [] -> re_match email_regex x = true.
Proof.
  unfold email_errors. destruct (re_match email_regex x);
    [reflexivity | discriminate].
Qed.

Lemma no_email_error (U : unicode_tables) (data : dict) (errs : list str)
  (e : str) :
  validate_contact_form U data = Ok errs ->
  field data K_email = JString e ->
  ~ In E_email errs ->
  EmailPattern (strip e).
Proof.
  intros Hv He Hn. apply validate_ok_inv in Hv.
  destruct Hv as (n & e' & p & m & _ & He' & _ & _ & ->).
  rewrite He in He'. inversion He'; subst e'.
  apply re_match_strip.
  destruct (email_errors_cases (strip e)) as [H|H].
  - apply email_errors_nil. exact H.
  - exfalso. apply Hn. rewrite !in_app_iff, H. right. left. left. reflexivity.
Qed.

(** X5. An email the validator lets through is, once trimmed, pure ASCII,
    at least six characters long, holds exactly one at-sign, no whitespace
    and none of the five characters that HTML escaping rewrites. *)
Theorem X5_accepted_email_shape
  (U : unicode_tables) (data : dict) (errs : list str) (e : str) :
  validate_contact_form U data = Ok errs ->
  field data K_email = JString e ->
  ~ In E_email errs ->
  count 64%N (strip e) = 1
  /\ 6 <= length (strip e)
  /\ forallb is_ascii (strip e) = true
  /\ forallb (fun c => negb (isspace c)) (strip e) = true
  /\ forallb (fun c => negb (special c)) (strip e) = true.
Proof.
  intros Hv He Hn. pose proof (@no_email_error U data errs e Hv He Hn) as P.
  pose proof (@EmailPattern_chars (strip e) P) as Hc.
  destruct P as (l & d & t & Es & Hl1 & Hl2 & Hd1 & Hd2 & Ht1 & Ht2).
  split; [|split; [|split; [|split]]].
  - rewrite Es, !count_app.
    rewrite (@count_zero_class local_char 64%N l); [|intros x Hx|exact Hl2].
    2:{ apply local_char_iff in Hx. lia. }
    rewrite (@count_zero_class domain_char 64%N d); [|intros x Hx|exact Hd2].
    2:{ apply domain_char_iff in Hx. lia. }
    rewrite (@count_zero_class letter 64%N t); [|intros x Hx|exact Ht2].
    2:{ apply letter_iff in Hx. lia. }
    reflexivity.
  - rewrite Es, !length_app.
    destruct l; [congruence|]. destruct d; [congruence|]. simpl. lia.
  - revert Hc. apply forallb_weaken, email_char_ascii.
  - revert Hc. apply forallb_weaken. intros c H.
    destruct (isspace c) eqn:Hs; [|reflexivity].
    apply isspace_iff in Hs. apply email_char_iff in H. lia.
  - revert Hc. apply forallb_weaken, email_char_plain.
Qed.

Lemma X5_witness :
  validate_contact_form ascii_only body_mixed_case = Ok []
  /\ field body_mixed_case K_email = JString (lit "  Jo.Doe@Example.COM ")
  /\ ~ In E_email []
  /\ (count 64%N (strip (lit "  Jo.Doe@Example.COM ")) = 1
      /\ 6 <= length (strip (lit "  Jo.Doe@Example.COM "))
      /\ forallb is_ascii (strip (lit "  Jo.Doe@Example.COM ")) = true
      /\ forallb (fun c => negb (isspace c))
           (strip (lit "  Jo.Doe@Example.COM ")) = true
      /\ forallb (fun c => negb (special c))
           (strip (lit "  Jo.Doe@Example.COM ")) = true).
Proof.
  assert (Hv : validate_contact_form ascii_only body_mixed_case = Ok [])
    by (vm_compute; reflexivity).
  assert (Hn : ~ In E_email []) by (intros X; exact X).
  split; [exact Hv|]. split; [reflexivity|]. split; [exact Hn|].
  exact (@X5_accepted_email_shape ascii_only body_mixed_case []
           (lit "  Jo.Doe@Example.COM ") Hv eq_refl Hn).
Defined.

(* ================================================================== *)
(** * Further properties of the sanitizer *)
(* ================================================================== *)

Lemma sanitize_unfold (U : unicode_tables) (data : dict) (ts : str) :
  sanitize U data ts
  = rbind (rbind (dict_index data K_name) method_strip) (fun n =>
    rbind (rbind (dict_index data K_email) method_strip) (fun e =>
    rbind (method_strip (field data K_phone)) (fun p =>
    rbind (rbind (dict_index data K_message) method_strip) (fun m =>
    Ok {| name := escape (firstn 100 n);
          email := escape (lower U e);
          phone := escape (firstn 20 p);
          message_text := escape (firstn 1000 m);
          timestamp := ts |})))).
Proof.
  unfold sanitize, field.
  destruct (dict_index data K_name) as [v1|]; [|reflexivity]. cbn [rbind].
  destruct (method_strip v1); [|reflexivity]. cbn [rbind].
  destruct (dict_index data K_email) as [v2|]; [|reflexivity]. cbn [rbind].
  destruct (method_strip v2); [|reflexivity]. cbn [rbind].
  destruct (method_strip (dict_get data K_phone (JString [])));
    [|reflexivity]. cbn [rbind].
  destruct (dict_index data K_message) as [v4|]; [|reflexivity]. cbn [rbind].
  destruct (method_strip v4); reflexivity.
Qed.

(** The sanitizer returns, with the four escaped fields, or raises one of
    two exceptions. *)
Lemma sanitize_cases (U : unicode_tables) (data : dict) (ts : str) :
  (exists n e p m,
      lookup data K_name = Some (JString n)
      /\ lookup data K_email = Some (JString e)
      /\ field data K_phone = JString p
      /\ lookup data K_message = Some (JString m)
      /\ sanitize U data ts
         = Ok {| name := escape (firstn 100 (strip n));
                 email := escape (lower U (strip e));
                 phone := escape (firstn 20 (strip p));
                 message_text := escape (firstn 1000 (strip m));
                 timestamp := ts |})
  \/ ((lookup data K_name = None \/ lookup data K_email = None
       \/ lookup data K_message = None)
      /\ sanitize U data ts = Raise KeyError)
  \/ ((exists k v, In k form_keys /\ lookup data k = Some v
                   /\ forall s, v <> JString s)
      /\ sanitize U data ts = Raise AttributeError).
Proof.
  rewrite sanitize_unfold. unfold dict_index, field, dict_get.
  destruct (lookup data K_name) as [[|b|x|n|l|d]|] eqn:Hn; cbn [rbind method_strip];
    try (right; right; split; [|reflexivity];
         exists K_name; eexists; split; [left; reflexivity|];
         split; [exact Hn | intros s; discriminate]);
    try (right; left; split; [auto | reflexivity]).
  destruct (lookup data K_email) as [[|b|x|e|l|d]|] eqn:He; cbn [rbind method_strip];
    try (right; right; split; [|reflexivity];
         exists K_email; eexists; split; [right; left; reflexivity|];
         split; [exact He | intros s; discriminate]);
    try (right; left; split; [auto | reflexivity]).
  destruct (lookup data K_phone) as [[|b|x|p|l|d]|] eqn:Hp; cbn [rbind method_strip];
    try (right; right; split; [|reflexivity];
         exists K_phone; eexists; split; [right; right; left; reflexivity|];
         split; [exact Hp | intros s; discriminate]).
  - destruct (lookup data K_message) as [[|b|x|m|l|d]|] eqn:Hm;
      cbn [rbind method_strip];
      try (right; right; split; [|reflexivity];
           exists K_message; eexists;
           split; [right; right; right; left; reflexivity|];
           split; [exact Hm | intros s; discriminate]);
      try (right; left; split; [auto | reflexivity]).
    left. exists n, e, p, m. auto.
  - destruct (lookup data K_message) as [[|b|x|m|l|d]|] eqn:Hm;
      cbn [rbind method_strip];
      try (right; right; split; [|reflexivity];
           exists K_message; eexists;
           split; [right; right; right; left; reflexivity|];
           split; [exact Hm | intros s; discriminate]);
      try (right; left; split; [auto | reflexivity]).
    left. exists n, e, [], m. auto.
Qed.

Lemma sanitize_ok_inv (U : unicode_tables) (data : dict) (ts : str)
  (sub : SanitizedSubmission) :
  sanitize U data ts = Ok sub ->
  exists n e p m,
    lookup data K_name = Some (JString n)
    /\ lookup data K_email = Some (JString e)
    /\ field data K_phone = JString p
    /\ lookup data K_message = Some (JString m)
    /\ sub = {| name := escape (firstn 100 (strip n));
                email := escape (lower U (strip e));
                phone := escape (firstn 20 (strip p));
                message_text := escape (firstn 1000 (strip m));
                timestamp := ts |}.
Proof.
  intros H. destruct (sanitize_cases U data ts) as [C|[[_ C]|[_ C]]].
  - destruct C as (n & e & p & m & Hn & He & Hp & Hm & Hs).
    rewrite Hs in H. inversion H. exists n, e, p, m. auto.
  - rewrite C in H. discriminate H.
  - rewrite C in H. discriminate H.
Qed.

(** X6. For a body that passes validation nothing of the name, the email
    or the message is lost in sanitization: decoding the entities of the
    sanitized name and message gives back the trimmed texts in full (the
    cut at 100 and 1000 never bites), the sanitized email is the trimmed
    one in lower case, and the sanitized phone decodes to the first 20
    characters of the trimmed phone. *)
Theorem X6_sanitization_keeps_valid_text
  (U : unicode_tables) (data : dict) (ts : str) :
  validate_contact_form U data = Ok [] ->
  exists n e p m sub,
    field data K_name = JString n /\ field data K_email = JString e
    /\ field data K_phone = JString p /\ field data K_message = JString m
    /\ sanitize U data ts = Ok sub
    /\ unescape (name sub) = strip n
    /\ unescape (email sub) = map ascii_tolower (strip e)
    /\ unescape (phone sub) = firstn 20 (strip p)
    /\ unescape (message_text sub) = strip m
    /\ timestamp sub = ts.
Proof.
  intros H. apply valid_fields in H.
  destruct H as (n & e & p & m & Hn & He & Hp & Hm & Ln & Pe & _ & Lm).
  exists n, e, p, m. eexists.
  split; [unfold field, dict_get; rewrite Hn; reflexivity|].
  split; [unfold field, dict_get; rewrite He; reflexivity|].
  split; [exact Hp|].
  split; [unfold field, dict_get; rewrite Hm; reflexivity|].
  split; [apply (sanitize_present U data ts Hn He Hp Hm)|].
  cbn [name email phone message_text timestamp].
  rewrite !unescape_escape.
  rewrite (firstn_all2 (n := 100) (strip n)) by lia.
  rewrite (firstn_all2 (n := 1000) (strip m)) by lia.
  repeat split.
  apply lower_ascii. apply EmailPattern_chars in Pe.
  revert Pe. apply forallb_weaken, email_char_ascii.
Qed.

Lemma X6_witness :
  validate_contact_form ascii_only body_markup = Ok []
  /\ exists n e p m sub,
      field body_markup K_name = JString n
      /\ field body_markup K_email = JString e
      /\ field body_markup K_phone = JString p
      /\ field body_markup K_message = JString m
      /\ sanitize ascii_only body_markup stamp = Ok sub
      /\ unescape (name sub) = strip n
      /\ unescape (email sub) = map ascii_tolower (strip e)
      /\ unescape (phone sub) = firstn 20 (strip p)
      /\ unescape (message_text sub) = strip m
      /\ timestamp sub = stamp.
Proof.
  assert (Hv : validate_contact_form ascii_only body_markup = Ok [])
    by (vm_compute; reflexivity).
  split; [exact Hv|].
  exact (@X6_sanitization_keeps_valid_text ascii_only body_markup stamp Hv).
Defined.

(** A validated phone can lose digits in the cut at 20 characters. *)
Example spaced_phone_is_cut :
  validate_contact_form ascii_only
    ((K_phone, JString (lit "1 2 3 4 5 6 7 8 9 0 1 2")) :: body_A) = Ok []
  /\ exists sub,
      sanitize ascii_only
        ((K_phone, JString (lit "1 2 3 4 5 6 7 8 9 0 1 2")) :: body_A) stamp
      = Ok sub
      /\ phone sub = lit "1 2 3 4 5 6 7 8 9 0 ".
Proof.
  split; [vm_compute; reflexivity|].
  eexists. split; vm_compute; reflexivity.
Qed.

(** X7. Whatever the body, when the sanitizer returns, none of the
    sanitized name, email, phone and message holds a less-than sign, a
    greater-than sign, an apostrophe or a double quote, and every
    ampersand in them opens one of the five entities. *)
Theorem X7_sanitized_fields_hold_no_markup
  (U : unicode_tables) (data : dict) (ts : str) (sub : SanitizedSubmission)
  (f : str) :
  sanitize U data ts = Ok sub ->
  In f [name sub; email sub; phone sub; message_text sub] ->
  (forall c, In c f -> raw_markup c = false) /\ ampersands_escaped f.
Proof.
  intros H Hf. apply sanitize_ok_inv in H.
  destruct H as (n & e & p & m & _ & _ & _ & _ & ->).
  cbn [name email phone message_text] in Hf. simpl in Hf.
  destruct Hf as [<-|[<-|[<-|[<-|[]]]]];
    (split; [intros c; apply escape_no_raw_markup | apply escape_ampersands]).
Qed.

Lemma X7_witness :
  sanitize ascii_only body_markup stamp
  = Ok {| name := lit "&lt;b&gt;Jo&lt;/b&gt;";
          email := lit "jo@example.com";
          phone := [];
          message_text :=
            lit "Tom &amp; Jerry &lt;script&gt;x&lt;/script&gt;";
          timestamp := stamp |}
  /\ In (lit "&lt;b&gt;Jo&lt;/b&gt;")
       [lit "&lt;b&gt;Jo&lt;/b&gt;"; lit "jo@example.com"; [];
        lit "Tom &amp; Jerry &lt;script&gt;x&lt;/script&gt;"]
  /\ ((forall c, In c (lit "&lt;b&gt;Jo&lt;/b&gt;") -> raw_markup c = false)
      /\ ampersands_escaped (lit "&lt;b&gt;Jo&lt;/b&gt;")).
Proof.
  assert (Hs : sanitize ascii_only body_markup stamp
               = Ok {| name := lit "&lt;b&gt;Jo&lt;/b&gt;";
                       email := lit "jo@example.com";
                       phone := [];
                       message_text :=
                         lit "Tom &amp; Jerry &lt;script&gt;x&lt;/script&gt;";
                       timestamp := stamp |})
    by (vm_compute; reflexivity).
  assert (Hf : In (lit "&lt;b&gt;Jo&lt;/b&gt;")
                 [lit "&lt;b&gt;Jo&lt;/b&gt;"; lit "jo@example.com"; [];
                  lit "Tom &amp; Jerry &lt;script&gt;x&lt;/script&gt;"])
    by (left; reflexivity).
  split; [exact Hs|]. split; [exact Hf|].
  exact (@X7_sanitized_fields_hold_no_markup ascii_only body_markup stamp _
           (lit "&lt;b&gt;Jo&lt;/b&gt;") Hs Hf).
Defined.

(** X8. Taken alone, the sanitizing lines return exactly when name, email
    and message are present strings and phone is absent or a string; a
    missing name raises the missing-key error; and they raise nothing but
    that error or the attribute error of a value that is not a string. *)
Theorem X8_sanitizer_error_behaviour
  (U : unicode_tables) (data : dict) (ts : str) :
  ((exists sub, sanitize U data ts = Ok sub) <->
   (exists n e m,
       lookup data K_name = Some (JString n)
       /\ lookup data K_email = Some (JString e)
       /\ lookup data K_message = Some (JString m))
   /\ absent_or_string data K_phone)
  /\ (lookup data K_name = None -> sanitize U data ts = Raise KeyError)
  /\ (forall x, sanitize U data ts = Raise x ->
                x = KeyError \/ x = AttributeError).
Proof.
  split; [split|split].
  - intros [sub H]. apply sanitize_ok_inv in H.
    destruct H as (n & e & p & m & Hn & He & Hp & Hm & _).
    split; [exists n, e, m; auto|]. eapply field_string_inv. exact Hp.
  - intros [(n & e & m & Hn & He & Hm) Hp].
    apply field_text in Hp. eexists.
    apply (sanitize_present U data ts Hn He Hp Hm).
  - intros Hn. rewrite sanitize_unfold. unfold dict_index. rewrite Hn.
    reflexivity.
  - intros x Hx. destruct (sanitize_cases U data ts) as [C|[[_ C]|[_ C]]].
    + destruct C as (n & e & p & m & _ & _ & _ & _ & Hs).
      rewrite Hs in Hx. discriminate Hx.
    + rewrite C in Hx. inversion Hx. auto.
    + rewrite C in Hx. inversion Hx. auto.
Qed.

(** An empty object: the validator reports three errors, the sanitizing
    lines alone would raise the missing-key error. *)
Example sanitize_empty_object :
  sanitize ascii_only [] stamp = Raise KeyError.
Proof. reflexivity. Qed.

(* ================================================================== *)
(** * Further properties of the two messages *)
(* ================================================================== *)

Lemma raw_markup_iff (c : char) :
  raw_markup c = true <-> (c = 60 \/ c = 62 \/ c = 39 \/ c = 34)%N.
Proof.
  unfold raw_markup, one_of. cbn [existsb].
  rewrite !orb_true_iff, !N.eqb_eq. intuition (discriminate || lia).
Qed.

Lemma count_escape_markup (c : char) (s : str) :
  raw_markup c = true -> count c (escape s) = 0.
Proof.
  intros Hc. apply count_zero. intros x Hx ->.
  apply escape_no_raw_markup in Hx. congruence.
Qed.

Lemma count_phone_or_default (c : char) (p : str) :
  raw_markup c = true -> count c p = 0 -> count c (phone_or_default p) = 0.
Proof.
  intros Hc Hp. destruct p as [|x p]; [|exact Hp].
  apply raw_markup_iff in Hc.
  destruct Hc as [->|[->|[->| ->]]]; reflexivity.
Qed.

Ltac count_template Hc :=
  cbn [join app]; rewrite !count_app;
  repeat match goal with
         | H : count _ _ = 0 |- _ => rewrite H; clear H
         end;
  apply raw_markup_iff in Hc;
  destruct Hc as [->|[->|[->| ->]]]; vm_compute; reflexivity.

(** X9. In the HTML part of both messages the less-than signs, the
    greater-than signs, the apostrophes and the double quotes are those of
    the template and no more, whatever the body that was sanitized:
    submitted text adds no tag and closes no attribute.  The timestamp is
    assumed to hold none of these characters. *)
Theorem X9_html_markup_comes_from_the_template
  (U : unicode_tables) (data : dict) (ts : str) (sub : SanitizedSubmission)
  (c : char) :
  sanitize U data ts = Ok sub ->
  raw_markup c = true ->
  count c ts = 0 ->
  count c (admin_html sub) = count c (admin_html blank)
  /\ count c (user_html sub) = count c (user_html blank).
Proof.
  intros H Hc Hts. apply sanitize_ok_inv in H.
  destruct H as (n & e & p & m & _ & _ & _ & _ & ->).
  pose proof (@count_escape_markup c (firstn 100 (strip n)) Hc) as Cn.
  pose proof (@count_escape_markup c (lower U (strip e)) Hc) as Ce.
  pose proof (@count_escape_markup c (firstn 20 (strip p)) Hc) as Cp0.
  pose proof (@count_escape_markup c (firstn 1000 (strip m)) Hc) as Cm.
  pose proof (@count_phone_or_default c _ Hc Cp0) as Cp.
  clear Cp0.
  unfold admin_html, user_html, html_open, html_close.
  cbn [name email phone message_text timestamp].
  split; count_template Hc.
Qed.

Lemma X9_witness :
  sanitize ascii_only body_markup stamp
  = Ok {| name := lit "&lt;b&gt;Jo&lt;/b&gt;";
          email := lit "jo@example.com";
          phone := [];
          message_text :=
            lit "Tom &amp; Jerry &lt;script&gt;x&lt;/script&gt;";
          timestamp := stamp |}
  /\ raw_markup 60%N = true
  /\ count 60%N stamp = 0
  /\ (count 60%N
        (admin_html
           {| name := lit "&lt;b&gt;Jo&lt;/b&gt;";
              email := lit "jo@example.com";
              phone := [];
              message_text :=
                lit "Tom &amp; Jerry &lt;script&gt;x&lt;/script&gt;";
              timestamp := stamp |})
      = count 60%N (admin_html blank)
      /\ count 60%N
           (user_html
              {| name := lit "&lt;b&gt;Jo&lt;/b&gt;";
                 email := lit "jo@example.com";
                 phone := [];
                 message_text :=
                   lit "Tom &amp; Jerry &lt;script&gt;x&lt;/script&gt;";
                 timestamp := stamp |})
         = count 60%N (user_html blank)).
Proof.
  assert (Hs : sanitize ascii_only body_markup stamp
               = Ok {| name := lit "&lt;b&gt;Jo&lt;/b&gt;";
                       email := lit "jo@example.com";
                       phone := [];
                       message_text :=
                         lit "Tom &amp; Jerry &lt;script&gt;x&lt;/script&gt;";
                       timestamp := stamp |})
    by (vm_compute; reflexivity).
  split; [exact Hs|]. split; [reflexivity|]. split; [reflexivity|].
  exact (@X9_html_markup_comes_from_the_template ascii_only body_markup stamp
           _ 60%N Hs eq_refl eq_refl).
Defined.



(* ================================================================== *)
(** * Further properties of the handler *)
(* ================================================================== *)


(** Every request goes through exactly one rule of [handled]. *)
Lemma handle_handled (U : unicode_tables) (E : environment)
  (req : option json) :
  exists r t, handle U E req = (Ok r, t) /\ handled U E req r t.
Proof.
  destruct req as [[|b|x|s|l|data]|];
    try (eexists; eexists; split; [reflexivity|];
         apply H_bad_json; intros d; discriminate).
  rewrite handle_object. cbv zeta.
  destruct (validate_contact_form U data) as [[|x l]|e] eqn:Hv.
  - destruct (sanitize U data (clock E)) as [sub|e] eqn:Hs.
    + unfold dispatch_outcome.
      destruct (Message_init E (admin_msg_args (ADMIN_EMAIL E) sub)) eqn:Ha;
        [eexists; eexists; split; [reflexivity|];
         eapply H_admin_build_raised; eauto|].
      destruct (Message_init E (user_msg_args sub)) eqn:Hb;
        [eexists; eexists; split; [reflexivity|];
         eapply H_user_build_raised; eauto|].
      destruct (mail_send E [] (admin_msg_args (ADMIN_EMAIL E) sub)) eqn:Hc;
        [eexists; eexists; split; [reflexivity|];
         eapply H_first_send_raised; eauto|].
      destruct (mail_send E [admin_msg_args (ADMIN_EMAIL E) sub]
                  (user_msg_args sub)) eqn:Hd;
        eexists; eexists; (split; [reflexivity|]);
        [eapply H_second_send_raised | eapply H_sent]; eauto.
    + eexists; eexists; split; [reflexivity|].
      eapply H_sanitize_raised; eauto.
  - eexists; eexists; split; [reflexivity|]. eapply H_invalid; eauto.
  - eexists; eexists; split; [reflexivity|].
    eapply H_validation_raised; eauto.
Qed.


Ltac status_of H :=
  cbn [status R_bad_json R_internal_error R_invalid R_mail_unavailable
         R_sent] in H.

Ltac answer_here :=
  eexists; split; [reflexivity | reflexivity].


(** X13. Nothing is handed to the mail transport unless the body is a JSON
    object that passed validation and was sanitized, and both messages
    were built; and the first message handed over is always the admin
    one. *)
Theorem X13_no_send_without_a_valid_body
  (U : unicode_tables) (E : environment) (req : option json) :
  attempts (snd (handle U E req)) <> [] ->
  exists data sub,
    req = Some (JObject data)
    /\ validate_contact_form U data = Ok []
    /\ sanitize U data (clock E) = Ok sub
    /\ Message_init E (admin_msg_args (ADMIN_EMAIL E) sub) = None
    /\ Message_init E (user_msg_args sub) = None
    /\ hd_error (attempts (snd (handle U E req)))
       = Some (admin_msg_args (ADMIN_EMAIL E) sub).
Proof.
  destruct (handle_handled U E req) as (r & t & Hh & H).
  rewrite Hh. cbn [snd]. intros Hne.
  destruct H; cbn [attempts] in Hne; try (exfalso; apply Hne; reflexivity);
    exists data, sub; repeat split; assumption.
Qed.

Lemma X13_witness :
  attempts (snd (handle ascii_only env_first_send_fails
                   (Some (JObject body_A)))) <> []
  /\ exists data sub,
      Some (JObject body_A) = Some (JObject data)
      /\ validate_contact_form ascii_only data = Ok []
      /\ sanitize ascii_only data (clock env_first_send_fails) = Ok sub
      /\ Message_init env_first_send_fails
           (admin_msg_args (ADMIN_EMAIL env_first_send_fails) sub) = None
      /\ Message_init env_first_send_fails (user_msg_args sub) = None
      /\ hd_error
           (attempts (snd (handle ascii_only env_first_send_fails
                             (Some (JObject body_A)))))
         = Some (admin_msg_args (ADMIN_EMAIL env_first_send_fails) sub).
Proof.
  assert (Hne : attempts (snd (handle ascii_only env_first_send_fails
                                 (Some (JObject body_A)))) <> [])
    by (vm_compute; discriminate).
  split; [exact Hne|].
  exact (@X13_no_send_without_a_valid_body ascii_only env_first_send_fails
           (Some (JObject body_A)) Hne).
Defined.

(** X14. The status is 200 exactly when the body is a JSON object that
    passes validation, both messages are built and both sends return; the
    trace is then the debug print followed by the admin send and the
    submitter send, and nothing is logged. *)
Theorem X14_success_means_both_messages_sent
  (U : unicode_tables) (E : environment) (req : option json) :
  (answered U E req 200 <->
   exists data sub,
     req = Some (JObject data)
     /\ validate_contact_form U data = Ok []
     /\ sanitize U data (clock E) = Ok sub
     /\ Message_init E (admin_msg_args (ADMIN_EMAIL E) sub) = None
     /\ Message_init E (user_msg_args sub) = None
     /\ mail_send E [] (admin_msg_args (ADMIN_EMAIL E) sub) = None
     /\ mail_send E [admin_msg_args (ADMIN_EMAIL E) sub] (user_msg_args sub)
        = None)
  /\ (answered U E req 200 ->
      exists sub,
        handle U E req
        = (Ok R_sent,
           [Printed req; SendAttempt (admin_msg_args (ADMIN_EMAIL E) sub);
            SendAttempt (user_msg_args sub)])).
Proof.
  destruct (handle_handled U E req) as (r & t & Hh & H).
  split; [split|].
  - unfold answered. rewrite Hh. cbn [fst].
    intros (r' & Hr & Hst). inversion Hr; subst r'. clear Hr.
    destruct H; status_of Hst; try lia.
    exists data, sub. repeat split; assumption.
  - intros (data & sub & -> & Hv & Hs & Ha & Hb & Hc & Hd).
    unfold answered. rewrite (@handle_valid U E data sub Hv Hs).
    unfold dispatch_outcome. rewrite Ha, Hb, Hc, Hd. answer_here.
  - unfold answered. rewrite Hh. cbn [fst].
    intros (r' & Hr & Hst). inversion Hr; subst r'. clear Hr.
    destruct H; status_of Hst; try lia.
    exists sub. reflexivity.
Qed.

(** X15. When the admin send returns and the submitter send raises, the
    answer is the 503 one although the admin message has already been
    handed to the transport: both sends are in the trace, followed by the
    logged failure, and nothing undoes the first. *)
Theorem X15_second_send_failure_after_first_delivery
  (U : unicode_tables) (E : environment) (data : dict)
  (sub : SanitizedSubmission) (e : exn) :
  validate_contact_form U data = Ok [] ->
  sanitize U data (clock E) = Ok sub ->
  Message_init E (admin_msg_args (ADMIN_EMAIL E) sub) = None ->
  Message_init E (user_msg_args sub) = None ->
  mail_send E [] (admin_msg_args (ADMIN_EMAIL E) sub) = None ->
  mail_send E [admin_msg_args (ADMIN_EMAIL E) sub] (user_msg_args sub)
  = Some e ->
  handle U E (Some (JObject data))
  = (Ok R_mail_unavailable,
     [Printed (Some (JObject data));
      SendAttempt (admin_msg_args (ADMIN_EMAIL E) sub);
      SendAttempt (user_msg_args sub);
      LoggedMailError e]).
Proof.
  intros Hv Hs Ha Hb Hc Hd. rewrite (@handle_valid U E data sub Hv Hs).
  unfold dispatch_outcome. rewrite Ha, Hb, Hc, Hd. reflexivity.
Qed.

Lemma X15_witness :
  validate_contact_form ascii_only body_A = Ok []
  /\ sanitize ascii_only body_A (clock env_second_send_fails) = Ok sub_A
  /\ Message_init env_second_send_fails
       (admin_msg_args (ADMIN_EMAIL env_second_send_fails) sub_A) = None
  /\ Message_init env_second_send_fails (user_msg_args sub_A) = None
  /\ mail_send env_second_send_fails []
       (admin_msg_args (ADMIN_EMAIL env_second_send_fails) sub_A) = None
  /\ mail_send env_second_send_fails
       [admin_msg_args (ADMIN_EMAIL env_second_send_fails) sub_A]
       (user_msg_args sub_A) = Some MailTransportError
  /\ handle ascii_only env_second_send_fails (Some (JObject body_A))
     = (Ok R_mail_unavailable,
        [Printed (Some (JObject body_A));
         SendAttempt
           (admin_msg_args (ADMIN_EMAIL env_second_send_fails) sub_A);
         SendAttempt (user_msg_args sub_A);
         LoggedMailError MailTransportError]).
Proof.
  assert (Hv : validate_contact_form ascii_only body_A = Ok [])
    by (vm_compute; reflexivity).
  assert (Hs : sanitize ascii_only body_A (clock env_second_send_fails)
               = Ok sub_A) by (vm_compute; reflexivity).
  split; [exact Hv|]. split; [exact Hs|].
  split; [reflexivity|]. split; [reflexivity|].
  split; [reflexivity|]. split; [reflexivity|].
  exact (@X15_second_send_failure_after_first_delivery ascii_only
           env_second_send_fails body_A sub_A MailTransportError
           Hv Hs eq_refl eq_refl eq_refl eq_refl).
Defined.

(** X16. Every 5xx answer is logged and nothing else is: the status is 500
    exactly when the trace holds the record of the outer handler, and 503
    exactly when it holds the record of the inner one. *)
Theorem X16_server_errors_are_logged
  (U : unicode_tables) (E : environment) (req : option json) :
  (answered U E req 500 <->
   existsb is_unhandled_log (snd (handle U E req)) = true)
  /\ (answered U E req 503 <->
      existsb is_mail_log (snd (handle U E req)) = true).
Proof.
  destruct (handle_handled U E req) as (r & t & Hh & H).
  unfold answered. rewrite Hh. cbn [fst snd].
  destruct H; cbn [existsb is_unhandled_log is_mail_log orb];
    split; split;
    try (intros (r' & Hr & Hst); inversion Hr; subst r'; status_of Hst;
         first [reflexivity | lia]);
    try (intros X; first [discriminate X | answer_here]).
Qed.
